(** * SD-AQI firmware: the on-device gas-sensor pipeline

    Shallow embedding of the Arduino sketch of the repository (the listing
    in [research/sd_aqi_paper.md]): sampler, resistance model, EMA
    smoother, curve fitters, concentration estimator, composite index,
    alert evaluation, interactive calibration and the main loop.

    Target: an AVR board (the sketch includes [avr/pgmspace.h]); there
    [int] is 16 bits, [long] is 32 bits, and both [float] and [double] are
    IEEE-754 binary32, so every floating-point operation of the sketch is a
    binary32 operation rounded to nearest-even.

    The integers of the sketch are ADC codes, counts and their sums; they
    stay far inside their C types and are modelled in [Z].  The ADC and
    [math.h] are parameters.  Delays are not modelled. *)

From Stdlib Require Import ZArith Bool Ascii String List Lia Permutation.
From Stdlib Require Import Floats.SpecFloat.
Import ListNotations.

Local Open Scope Z_scope.

(** ** IEEE-754 binary32 *)

Module F32.

Definition prec : Z := 24.
Definition emax : Z := 128.

Definition float : Type := spec_float.

Definition add : float -> float -> float := SFadd prec emax.
Definition sub : float -> float -> float := SFsub prec emax.
Definition mul : float -> float -> float := SFmul prec emax.
Definition div : float -> float -> float := SFdiv prec emax.
Definition fabs : float -> float := SFabs.

(** C comparisons: any comparison with a NaN operand is false. *)
Definition ltb : float -> float -> bool := SFltb.
Definition leb : float -> float -> bool := SFleb.
Definition gtb (x y : float) : bool := SFltb y x.

Definition NAN : float := S754_nan.

Definition isnan (x : float) : bool :=
  match x with S754_nan => true | _ => false end.

Definition isinf (x : float) : bool :=
  match x with S754_infinity _ => true | _ => false end.

Definition is_finite (x : float) : bool :=
  match x with S754_zero _ | S754_finite _ _ _ => true | _ => false end.

(** Conversion of an integer to binary32, as in [(float)n]. *)
Definition of_int (n : Z) : float := binary_normalize prec emax n 0 false.

(** The decimal literal [n * 10^-k] ([n > 0]), correctly rounded. *)
Definition lit (n : positive) (k : nat) : float :=
  let '(mz, ez, lz) :=
    SFdiv_core_binary prec emax (Zpos n) 0 (10 ^ Z.of_nat k) 0 in
  binary_round_aux prec emax false mz ez lz.

Definition neg_lit (n : positive) (k : nat) : float := SFopp (lit n k).

Definition zero : float := S754_zero false.

End F32.

Definition float : Type := F32.float.

(** ** Sketch configuration *)

Definition MQ2_PIN : Z := 0.
Definition MQ7_PIN : Z := 1.
Definition MQ4_PIN : Z := 4.
Definition MQ9_PIN : Z := 2.
Definition MQ135_PIN : Z := 3.
Definition MQ8_PIN : Z := 5.
Definition RL_VALUE : Z := 10.

Definition CALIBARAION_SAMPLE_TIMES : nat := 50.
Definition READ_SAMPLE_TIMES : nat := 5.
Definition ANALOG_READ_RETRIES : nat := 5.
Definition EMA_ALPHA : float := F32.lit 25 2.

(** A curve is the array [pcurve[0..2]], that is [(p0, p1, p2)]. *)
Definition curve : Type := (float * float * float)%type.

Definition MQ2Curve : curve := (F32.lit 1291 3, F32.lit 21 2, F32.neg_lit 47 2).
Definition COCurve : curve := (F32.lit 1502 3, F32.lit 72 2, F32.neg_lit 34 2).
Definition SmokeCurve : curve := (F32.lit 1657 3, F32.lit 53 2, F32.neg_lit 49 2).
Definition MQ7Curve : curve := (F32.lit 1224 3, F32.lit 35 2, F32.neg_lit 38 2).
Definition MQ4Curve : curve := (F32.lit 858 3, F32.lit 26 2, F32.neg_lit 26 2).
Definition MQ9Curve : curve := (F32.lit 15 1, F32.lit 55 2, F32.neg_lit 45 2).
Definition CO2Curve : curve := (F32.lit 23 1, F32.lit 72 2, F32.neg_lit 34 2).
Definition NH3Curve : curve := (F32.lit 19 1, F32.lit 85 2, F32.neg_lit 44 2).
Definition NOxCurve : curve := (F32.lit 18 1, F32.lit 80 2, F32.neg_lit 41 2).
Definition AlcoholCurve : curve := (F32.lit 17 1, F32.lit 78 2, F32.neg_lit 35 2).
Definition BenzeneCurve : curve := (F32.lit 18 1, F32.lit 82 2, F32.neg_lit 40 2).
Definition MQ8Curve : curve := (F32.lit 10 1, F32.lit 30 2, F32.neg_lit 45 2).
Definition AirCurve : curve := (F32.lit 15 1, F32.lit 28 2, F32.neg_lit 44 2).

Definition MAX_CO2_THRESHOLD : float := F32.of_int 500.
Definition MAX_CO_THRESHOLD : float := F32.of_int 15.
Definition MAX_OIL_THRESHOLD : float := F32.lit 5 1.
Definition MAX_NOX_THRESHOLD : float := F32.of_int 2.
Definition MAX_HYDROCARBONS_THRESHOLD : float := F32.of_int 1.
Definition MAX_MOISTURE_THRESHOLD : float := F32.of_int 60.

(** ** The board and the device state *)

(** What the sketch cannot decide: the ADC. [adc_code hw pin k] is the
    code returned by the [k]-th call of [analogRead] (counted over the
    whole run) when it is made on [pin]. *)
Record Board : Type := { adc_code : Z -> nat -> Z }.

(** The C library functions of [math.h] the sketch calls. *)
Record Libm : Type := {
  log : float -> float;
  log10 : float -> float;
  pow : float -> float -> float
}.

Inductive port : Type := Serial | XBee.

(** The thirteen gas estimates of one cycle, named by their JSON keys. *)
Record Estimates : Type := {
  LPG : float; CO : float; Smoke : float; CO_MQ7 : float; CH4 : float;
  CO_MQ9 : float; CO2 : float; NH3 : float; NOx : float; Alcohol : float;
  Benzene : float; H2 : float; Air : float
}.

(** The single-line JSON object built at the end of a cycle, given by the
    values it is printed from. *)
Record Payload : Type := {
  j_gases : Estimates;
  j_Temperature : float;
  j_Humidity : float;
  j_SD_AQI : float;
  j_SD_AQI_level : string
}.

(** What is printed: a text, a float with a number of decimals, or the
    JSON object. *)
Inductive item : Type :=
| Txt (s : string)
| Num (x : float) (digits : nat)
| Json (j : Payload).

Inductive event : Type :=
| Print (p : port) (i : item)
| Println (p : port) (i : item).

(** The globals of the sketch, the number of ADC reads made so far and
    the lines written so far (most recent first). *)
Record Device : Type := {
  adc_reads : nat;
  output : list event;
  Ro_MQ2 : float; Ro_MQ7 : float; Ro_MQ4 : float;
  Ro_MQ9 : float; Ro_MQ135 : float; Ro_MQ8 : float;
  SmoothedRS_MQ2 : float; SmoothedRS_MQ7 : float; SmoothedRS_MQ4 : float;
  SmoothedRS_MQ9 : float; SmoothedRS_MQ135 : float; SmoothedRS_MQ8 : float
}.

(** The initial values of the globals: every [Ro] is 10, which is also
    the value [MQCalibration] falls back to, and every smoothed state is 0. *)
Definition power_on : Device := {|
  adc_reads := 0; output := [];
  Ro_MQ2 := F32.of_int 10; Ro_MQ7 := F32.of_int 10; Ro_MQ4 := F32.of_int 10;
  Ro_MQ9 := F32.of_int 10; Ro_MQ135 := F32.of_int 10; Ro_MQ8 := F32.of_int 10;
  SmoothedRS_MQ2 := F32.zero; SmoothedRS_MQ7 := F32.zero;
  SmoothedRS_MQ4 := F32.zero; SmoothedRS_MQ9 := F32.zero;
  SmoothedRS_MQ135 := F32.zero; SmoothedRS_MQ8 := F32.zero
|}.

Definition with_io (n : nat) (o : list event) (d : Device) : Device := {|
  adc_reads := n; output := o;
  Ro_MQ2 := Ro_MQ2 d; Ro_MQ7 := Ro_MQ7 d; Ro_MQ4 := Ro_MQ4 d;
  Ro_MQ9 := Ro_MQ9 d; Ro_MQ135 := Ro_MQ135 d; Ro_MQ8 := Ro_MQ8 d;
  SmoothedRS_MQ2 := SmoothedRS_MQ2 d; SmoothedRS_MQ7 := SmoothedRS_MQ7 d;
  SmoothedRS_MQ4 := SmoothedRS_MQ4 d; SmoothedRS_MQ9 := SmoothedRS_MQ9 d;
  SmoothedRS_MQ135 := SmoothedRS_MQ135 d; SmoothedRS_MQ8 := SmoothedRS_MQ8 d
|}.

(** The six smoothed states as one tuple, in the order
    MQ2, MQ7, MQ4, MQ9, MQ135, MQ8. *)
Definition smoothed (d : Device) : float * float * float * float * float * float :=
  (SmoothedRS_MQ2 d, SmoothedRS_MQ7 d, SmoothedRS_MQ4 d,
   SmoothedRS_MQ9 d, SmoothedRS_MQ135 d, SmoothedRS_MQ8 d).

Definition baselines (d : Device) : float * float * float * float * float * float :=
  (Ro_MQ2 d, Ro_MQ7 d, Ro_MQ4 d, Ro_MQ9 d, Ro_MQ135 d, Ro_MQ8 d).

Definition with_smoothed (s : float * float * float * float * float * float)
    (d : Device) : Device :=
  let '(s2, s7, s4, s9, s135, s8) := s in {|
  adc_reads := adc_reads d; output := output d;
  Ro_MQ2 := Ro_MQ2 d; Ro_MQ7 := Ro_MQ7 d; Ro_MQ4 := Ro_MQ4 d;
  Ro_MQ9 := Ro_MQ9 d; Ro_MQ135 := Ro_MQ135 d; Ro_MQ8 := Ro_MQ8 d;
  SmoothedRS_MQ2 := s2; SmoothedRS_MQ7 := s7; SmoothedRS_MQ4 := s4;
  SmoothedRS_MQ9 := s9; SmoothedRS_MQ135 := s135; SmoothedRS_MQ8 := s8
|}.

Definition with_baselines (r : float * float * float * float * float * float)
    (d : Device) : Device :=
  let '(r2, r7, r4, r9, r135, r8) := r in {|
  adc_reads := adc_reads d; output := output d;
  Ro_MQ2 := r2; Ro_MQ7 := r7; Ro_MQ4 := r4;
  Ro_MQ9 := r9; Ro_MQ135 := r135; Ro_MQ8 := r8;
  SmoothedRS_MQ2 := SmoothedRS_MQ2 d; SmoothedRS_MQ7 := SmoothedRS_MQ7 d;
  SmoothedRS_MQ4 := SmoothedRS_MQ4 d; SmoothedRS_MQ9 := SmoothedRS_MQ9 d;
  SmoothedRS_MQ135 := SmoothedRS_MQ135 d; SmoothedRS_MQ8 := SmoothedRS_MQ8 d
|}.

(** ** State monad of the sketch *)

Definition M (A : Type) : Type := Device -> A * Device.

Definition ret {A : Type} (a : A) : M A := fun d => (a, d).

Definition bind {A B : Type} (c : M A) (k : A -> M B) : M B :=
  fun d => let (a, d') := c d in k a d'.

Declare Scope sketch_scope.
Delimit Scope sketch_scope with sketch.
Notation "x <- c ;; k" := (bind c (fun x => k))
  (at level 61, c at next level, right associativity) : sketch_scope.
Notation "c ;;; k" := (bind c (fun _ => k))
  (at level 61, right associativity) : sketch_scope.
Local Open Scope sketch_scope.

Definition get {A : Type} (f : Device -> A) : M A := fun d => (f d, d).

Definition emit (e : event) : M unit :=
  fun d => (tt, with_io (adc_reads d) (e :: output d) d).

Definition println (p : port) (s : string) : M unit := emit (Println p (Txt s)).

(** One call of the Arduino [analogRead]. *)
Definition analogRead (hw : Board) (pin : Z) : M Z :=
  fun d => (adc_code hw pin (adc_reads d),
            with_io (S (adc_reads d)) (output d) d).

(** ** Sampler *)

(** The [for] loop of [analogReadWithRetries]: [n] attempts are left and
    [val] holds the last code read. *)
Fixpoint retry_loop (hw : Board) (pin : Z) (n : nat) (val : Z) : M Z :=
  match n with
  | O => ret val
  | S n' =>
      v <- analogRead hw pin ;;
      if (0 <? v) && (v <? 1023) then ret v else retry_loop hw pin n' v
  end.

(** [val] is assigned by the first read before it is ever returned; the 0
    it starts with here is never seen. *)
Definition analogReadWithRetries (hw : Board) (pin : Z) : M Z :=
  retry_loop hw pin ANALOG_READ_RETRIES 0.

(** First loop of [readAnalogFilteredRaw]: fill [samples[0..n-1]]. *)
Fixpoint read_samples (hw : Board) (pin : Z) (n : nat) : M (list Z) :=
  match n with
  | O => ret []
  | S n' =>
      s <- analogReadWithRetries hw pin ;;
      rest <- read_samples hw pin n' ;;
      ret (s :: rest)
  end.

(** Second loop: one step on [(minv, maxv, sum)]. *)
Definition scan_step (acc : Z * Z * Z) (s : Z) : Z * Z * Z :=
  let '(minv, maxv, sum) := acc in
  ((if s <? minv then s else minv), (if s >? maxv then s else maxv), sum + s).

Definition scan (samples : list Z) : Z * Z * Z :=
  fold_left scan_step samples (1024, -1, 0).

(** The tail of [readAnalogFilteredRaw] for a sample count [n]; the C
    division of integers truncates, hence [Z.quot]. *)
Definition trim_mean (n : nat) (samples : list Z) : Z :=
  let '(minv, maxv, sum) := scan samples in
  if 2 <? Z.of_nat n
  then Z.quot (sum - minv - maxv) (Z.of_nat n - 2)
  else Z.quot sum (Z.of_nat n).

(** [readAnalogFilteredRaw] with the macro [READ_SAMPLE_TIMES] as a
    parameter. *)
Definition readAnalogFilteredRaw_with (n : nat) (hw : Board) (pin : Z) : M Z :=
  samples <- read_samples hw pin n ;;
  ret (trim_mean n samples).

Definition readAnalogFilteredRaw : Board -> Z -> M Z :=
  readAnalogFilteredRaw_with READ_SAMPLE_TIMES.

(** ** Resistance model *)

Definition resistance (raw_adc : Z) : float :=
  F32.div (F32.mul (F32.of_int RL_VALUE) (F32.of_int (1023 - raw_adc)))
          (F32.of_int raw_adc).

Definition MQResistanceCalculation (raw_adc : Z) : M float :=
  if raw_adc =? 0
  then println Serial "Error: Invalid ADC value (0)" ;;; ret F32.NAN
  else ret (resistance raw_adc).

(** ** Baseline calibration *)

(** The loop of [MQCalibration]: [n] iterations are left. *)
Fixpoint calibration_loop (hw : Board) (mq_pin : Z) (n : nat) (val : float)
    : M float :=
  match n with
  | O => ret val
  | S n' =>
      raw <- readAnalogFilteredRaw hw mq_pin ;;
      resistance <- MQResistanceCalculation raw ;;
      if F32.isnan resistance || F32.isinf resistance
      then println Serial "Warning: Invalid resistance during calibration sample, skipping sample." ;;;
           calibration_loop hw mq_pin n' val
      else calibration_loop hw mq_pin n' (F32.add val resistance)
  end.

Definition MQCalibration (hw : Board) (mq_pin : Z) (clean_air_factor : float)
    : M float :=
  val <- calibration_loop hw mq_pin CALIBARAION_SAMPLE_TIMES (F32.of_int 0) ;;
  if F32.leb val (F32.of_int 0)
  then println Serial "Calibration failed: no valid samples. Using default Ro=10." ;;;
       ret (F32.of_int 10)
  else
    let val := F32.div val (F32.of_int (Z.of_nat CALIBARAION_SAMPLE_TIMES)) in
    ret (F32.div val clean_air_factor).

(** ** Smoother *)

(** The statement repeated in every branch of [MQRead]:
    [if (S <= 0) S = rs; else S = (EMA_ALPHA * rs) + ((1 - EMA_ALPHA) * S);] *)
Definition ema (S rs : float) : float :=
  if F32.leb S (F32.of_int 0)
  then rs
  else F32.add (F32.mul EMA_ALPHA rs)
               (F32.mul (F32.sub (F32.of_int 1) EMA_ALPHA) S).

Definition set_SmoothedRS_MQ2 (v : float) (d : Device) : Device :=
  with_smoothed (v, SmoothedRS_MQ7 d, SmoothedRS_MQ4 d, SmoothedRS_MQ9 d,
                 SmoothedRS_MQ135 d, SmoothedRS_MQ8 d) d.
Definition set_SmoothedRS_MQ7 (v : float) (d : Device) : Device :=
  with_smoothed (SmoothedRS_MQ2 d, v, SmoothedRS_MQ4 d, SmoothedRS_MQ9 d,
                 SmoothedRS_MQ135 d, SmoothedRS_MQ8 d) d.
Definition set_SmoothedRS_MQ4 (v : float) (d : Device) : Device :=
  with_smoothed (SmoothedRS_MQ2 d, SmoothedRS_MQ7 d, v, SmoothedRS_MQ9 d,
                 SmoothedRS_MQ135 d, SmoothedRS_MQ8 d) d.
Definition set_SmoothedRS_MQ9 (v : float) (d : Device) : Device :=
  with_smoothed (SmoothedRS_MQ2 d, SmoothedRS_MQ7 d, SmoothedRS_MQ4 d, v,
                 SmoothedRS_MQ135 d, SmoothedRS_MQ8 d) d.
Definition set_SmoothedRS_MQ135 (v : float) (d : Device) : Device :=
  with_smoothed (SmoothedRS_MQ2 d, SmoothedRS_MQ7 d, SmoothedRS_MQ4 d,
                 SmoothedRS_MQ9 d, v, SmoothedRS_MQ8 d) d.
Definition set_SmoothedRS_MQ8 (v : float) (d : Device) : Device :=
  with_smoothed (SmoothedRS_MQ2 d, SmoothedRS_MQ7 d, SmoothedRS_MQ4 d,
                 SmoothedRS_MQ9 d, SmoothedRS_MQ135 d, v) d.

(** Update one global through [ema] and return its new value. *)
Definition smooth (S : Device -> float) (set_S : float -> Device -> Device)
    (rs : float) : M float :=
  fun d => let s' := ema (S d) rs in (s', set_S s' d).

Definition MQRead (hw : Board) (mq_pin : Z) (Ro : float) : M float :=
  raw <- readAnalogFilteredRaw hw mq_pin ;;
  rs <- MQResistanceCalculation raw ;;
  if F32.isnan rs || F32.isinf rs then ret F32.NAN
  else if mq_pin =? MQ2_PIN then smooth SmoothedRS_MQ2 set_SmoothedRS_MQ2 rs
  else if mq_pin =? MQ7_PIN then smooth SmoothedRS_MQ7 set_SmoothedRS_MQ7 rs
  else if mq_pin =? MQ4_PIN then smooth SmoothedRS_MQ4 set_SmoothedRS_MQ4 rs
  else if mq_pin =? MQ9_PIN then smooth SmoothedRS_MQ9 set_SmoothedRS_MQ9 rs
  else if mq_pin =? MQ135_PIN then smooth SmoothedRS_MQ135 set_SmoothedRS_MQ135 rs
  else if mq_pin =? MQ8_PIN then smooth SmoothedRS_MQ8 set_SmoothedRS_MQ8 rs
  else ret rs.

(** The global [SmoothedRS_*] that [MQRead] keeps for a pin, if any. *)
Definition SmoothedRS (mq_pin : Z) (d : Device) : option float :=
  if mq_pin =? MQ2_PIN then Some (SmoothedRS_MQ2 d)
  else if mq_pin =? MQ7_PIN then Some (SmoothedRS_MQ7 d)
  else if mq_pin =? MQ4_PIN then Some (SmoothedRS_MQ4 d)
  else if mq_pin =? MQ9_PIN then Some (SmoothedRS_MQ9 d)
  else if mq_pin =? MQ135_PIN then Some (SmoothedRS_MQ135 d)
  else if mq_pin =? MQ8_PIN then Some (SmoothedRS_MQ8 d)
  else None.

(** ** Concentration estimator, composite index, alerts *)

Definition MQGetGasPercentage (lm : Libm) (rs_ro_ratio : float) (pcurve : curve)
    : float :=
  let '(p0, p1, p2) := pcurve in
  pow lm (F32.of_int 10)
    (F32.add (F32.div (F32.sub (log lm rs_ro_ratio) p1) p2) p0).

Definition calculateSDAQI (co co_mq7 co_mq9 ch4 h2 co2 nox air : float) : float :=
  F32.add (F32.add (F32.add (F32.add (F32.add (F32.add (F32.add
    (F32.mul co (F32.lit 5 2))
    (F32.mul co_mq7 (F32.lit 1 1)))
    (F32.mul co_mq9 (F32.lit 1 1)))
    (F32.mul ch4 (F32.lit 1 1)))
    (F32.mul h2 (F32.lit 5 2)))
    (F32.mul co2 (F32.lit 5 1)))
    (F32.mul nox (F32.lit 1 1)))
    (F32.mul air (F32.lit 5 2)).

(** The threshold ladder of [loop]. *)
Definition SD_AQI_level (SD_AQI : float) : string :=
  if F32.leb SD_AQI (F32.of_int 50) then "Excellent"
  else if F32.leb SD_AQI (F32.of_int 100) then "Good"
  else if F32.leb SD_AQI (F32.of_int 150) then "Moderate"
  else if F32.leb SD_AQI (F32.of_int 200) then "Unhealthy for Sensitive Groups"
  else if F32.leb SD_AQI (F32.of_int 300) then "Unhealthy"
  else "Hazardous".

(** [Serial.println(F(msg))] followed, under [ENABLE_XBEE], by
    [XBee.println(F(msg))]. *)
Definition alert (msg : string) : M unit :=
  println Serial msg ;;; println XBee msg.

Definition when (b : bool) (c : M unit) : M unit := if b then c else ret tt.

Definition ALERT_CO2 : string :=
  "ALERT: Carbon Dioxide (CO2) level exceeds safe threshold!".
Definition ALERT_CO : string :=
  "ALERT: Carbon Monoxide (CO) level exceeds safe threshold!".
Definition ALERT_LPG : string := "ALERT: LPG level exceeds safe threshold!".
Definition ALERT_NOX : string :=
  "ALERT: Nitrogen Oxides (NOx) level exceeds safe threshold!".
Definition ALERT_BENZENE : string := "ALERT: Benzene level exceeds safe threshold!".
Definition ALERT_HUMIDITY : string := "ALERT: Humidity exceeds safe threshold!".

Definition evaluateAirQuality (co2 co lpg nox benzene humidity : float) : M unit :=
  when (F32.gtb co2 MAX_CO2_THRESHOLD) (alert ALERT_CO2) ;;;
  when (F32.gtb co MAX_CO_THRESHOLD) (alert ALERT_CO) ;;;
  when (F32.gtb lpg MAX_HYDROCARBONS_THRESHOLD) (alert ALERT_LPG) ;;;
  when (F32.gtb nox MAX_NOX_THRESHOLD) (alert ALERT_NOX) ;;;
  when (F32.gtb benzene MAX_HYDROCARBONS_THRESHOLD) (alert ALERT_BENZENE) ;;;
  when (F32.gtb humidity MAX_MOISTURE_THRESHOLD) (alert ALERT_HUMIDITY).

(** ** Start-up *)

Definition set_Ro_MQ2 (v : float) (d : Device) : Device :=
  with_baselines (v, Ro_MQ7 d, Ro_MQ4 d, Ro_MQ9 d, Ro_MQ135 d, Ro_MQ8 d) d.
Definition set_Ro_MQ7 (v : float) (d : Device) : Device :=
  with_baselines (Ro_MQ2 d, v, Ro_MQ4 d, Ro_MQ9 d, Ro_MQ135 d, Ro_MQ8 d) d.
Definition set_Ro_MQ4 (v : float) (d : Device) : Device :=
  with_baselines (Ro_MQ2 d, Ro_MQ7 d, v, Ro_MQ9 d, Ro_MQ135 d, Ro_MQ8 d) d.
Definition set_Ro_MQ9 (v : float) (d : Device) : Device :=
  with_baselines (Ro_MQ2 d, Ro_MQ7 d, Ro_MQ4 d, v, Ro_MQ135 d, Ro_MQ8 d) d.
Definition set_Ro_MQ135 (v : float) (d : Device) : Device :=
  with_baselines (Ro_MQ2 d, Ro_MQ7 d, Ro_MQ4 d, Ro_MQ9 d, v, Ro_MQ8 d) d.
Definition set_Ro_MQ8 (v : float) (d : Device) : Device :=
  with_baselines (Ro_MQ2 d, Ro_MQ7 d, Ro_MQ4 d, Ro_MQ9 d, Ro_MQ135 d, v) d.

(** One block of [setup]:
    [Serial.println(F("Calibrating X...")); Ro_X = MQCalibration(PIN, f);
     Serial.print(F("Ro for X: ")); Serial.println(Ro_X);] *)
Definition calibrate (hw : Board) (name : string) (mq_pin : Z)
    (clean_air_factor : float) (set_Ro : float -> Device -> Device) : M unit :=
  println Serial ("Calibrating " ++ name ++ "...") ;;;
  Ro <- MQCalibration hw mq_pin clean_air_factor ;;
  (fun d => (tt, set_Ro Ro d)) ;;;
  emit (Print Serial (Txt ("Ro for " ++ name ++ ": "))) ;;;
  emit (Println Serial (Num Ro 2)).

Definition setup (hw : Board) : M unit :=
  calibrate hw "MQ-2" MQ2_PIN (F32.lit 983 2) set_Ro_MQ2 ;;;
  calibrate hw "MQ-7" MQ7_PIN (F32.lit 2732 2) set_Ro_MQ7 ;;;
  calibrate hw "MQ-4" MQ4_PIN (F32.lit 440 2) set_Ro_MQ4 ;;;
  calibrate hw "MQ-9" MQ9_PIN (F32.lit 980 2) set_Ro_MQ9 ;;;
  calibrate hw "MQ-135" MQ135_PIN (F32.lit 36 1) set_Ro_MQ135 ;;;
  calibrate hw "MQ-8" MQ8_PIN (F32.lit 999 2) set_Ro_MQ8 ;;;
  emit (Println Serial (Txt EmptyString)) ;;;
  println Serial "Calibration helper available. Send 'C' over Serial to start interactive calibration." ;;;
  println XBee "XBee ready".

(** ** Curve fitters *)

Definition computeTwoPointCurve (lm : Libm) (ppm1 rsro1 ppm2 rsro2 : float)
    : M curve :=
  let x1 := log lm rsro1 in
  let x2 := log lm rsro2 in
  let y1 := log10 lm ppm1 in
  let y2 := log10 lm ppm2 in
  if F32.ltb (F32.fabs (F32.sub x2 x1)) (F32.lit 1 6)
  then println Serial "Error: Rs/Ro points identical (can't fit curve)" ;;;
       ret (F32.NAN, F32.NAN, F32.NAN)
  else
    let m := F32.div (F32.sub y2 y1) (F32.sub x2 x1) in
    let p2 := F32.div (F32.of_int 1) m in
    let p1 := F32.of_int 0 in
    let p0 := F32.add (F32.sub y1 (F32.div x1 p2)) (F32.div p1 p2) in
    ret (p0, p1, p2).

Definition readCurveFromProgmem (progCurve : curve) : curve := progCurve.

(** The summation loop of [computeMultiPointCurve] over the points
    [(ppm[i], rsro[i])]; [None] is the early [return false]. *)
Fixpoint regression_sums (lm : Libm) (pts : list (float * float))
    (acc : float * float * float * float)
    : option (float * float * float * float) :=
  match pts with
  | [] => Some acc
  | (ppm_i, rsro_i) :: rest =>
      if F32.leb rsro_i (F32.of_int 0) || F32.leb ppm_i (F32.of_int 0)
      then None
      else
        let x := log lm rsro_i in
        let y := log10 lm ppm_i in
        let '(sumx, sumy, sumxy, sumx2) := acc in
        regression_sums lm rest
          (F32.add sumx x, F32.add sumy y,
           F32.add sumxy (F32.mul x y), F32.add sumx2 (F32.mul x x))
  end.

(** [Some c] is [return true] with [outCurve = c]; [None] is
    [return false], which leaves [outCurve] unwritten. *)
Definition computeMultiPointCurve (lm : Libm) (ppm rsro : list float) (n : Z)
    : option curve :=
  if n <? 2 then None
  else
    let z := F32.of_int 0 in
    match regression_sums lm
            (firstn (Z.to_nat n) (combine ppm rsro)) (z, z, z, z) with
    | None => None
    | Some (sumx, sumy, sumxy, sumx2) =>
        let fn := F32.of_int n in
        let denom := F32.sub (F32.mul fn sumx2) (F32.mul sumx sumx) in
        if F32.ltb (F32.fabs denom) (F32.lit 1 12) then None
        else
          let a := F32.div (F32.sub (F32.mul fn sumxy) (F32.mul sumx sumy)) denom in
          let b := F32.div (F32.sub sumy (F32.mul a sumx)) fn in
          if F32.ltb (F32.fabs a) (F32.lit 1 12) then None
          else
            let p2 := F32.div (F32.of_int 1) a in
            let meanx := F32.div sumx fn in
            let p1 := meanx in
            let p0 := F32.add b (F32.div p1 p2) in
            Some (p0, p1, p2)
  end.

(** ** Interactive calibration *)

(** The loop of [measureRsOverRo]: [n] iterations are left. *)
Fixpoint measure_loop (hw : Board) (mq_pin : Z) (n : nat)
    (validCount : Z) (sumRs : float) : M (Z * float) :=
  match n with
  | O => ret (validCount, sumRs)
  | S n' =>
      raw <- readAnalogFilteredRaw hw mq_pin ;;
      rs <- MQResistanceCalculation raw ;;
      if F32.isnan rs || F32.isinf rs
      then measure_loop hw mq_pin n' validCount sumRs
      else measure_loop hw mq_pin n' (validCount + 1) (F32.add sumRs rs)
  end.

Definition measureRsOverRo (hw : Board) (mq_pin : Z) (Ro : float) (samples : nat)
    : M float :=
  r <- measure_loop hw mq_pin samples 0 (F32.of_int 0) ;;
  let '(validCount, sumRs) := r in
  if validCount =? 0 then ret F32.NAN
  else
    let avgRs := F32.div sumRs (F32.of_int validCount) in
    ret (F32.div avgRs Ro).

(** A token found by [strtok] on the operator's line, given by what the C
    library returns on it: [atoi tok] and [atof tok]. *)
Record token : Type := { atoi : Z; atof : float }.

(** What the serial port holds when [handleSerialCalibration] is entered:
    nothing, or a byte followed (after the prompt) by the operator's line
    as its tokens.  The two [while (!Serial.available()) delay(10);] waits
    are taken to end: the operator answers. *)
Inductive serial_input : Type :=
| NoData
| Received (cmd : ascii) (line : list token).

(** The exit [handleSerialCalibration] leaves by (it returns [void]). *)
Inductive calibration_exit : Type :=
| NoCommand
| Aborted
| FitRejected
| CurveAccepted (c : curve).

(** The loop that fills [ppmList[0..N-1]]. *)
Fixpoint parse_ppm (n : nat) (toks : list token) : M (option (list float)) :=
  match n with
  | O => ret (Some [])
  | S n' =>
      match toks with
      | [] => println Serial "Parse error: not enough ppm values" ;;; ret None
      | tok :: rest =>
          if F32.leb (atof tok) (F32.of_int 0)
          then println Serial "Invalid ppm value" ;;; ret None
          else r <- parse_ppm n' rest ;; ret (option_map (cons (atof tok)) r)
      end
  end.

Definition sensor_pin (sensor : Z) : option (Z * (Device -> float)) :=
  if sensor =? 2 then Some (MQ2_PIN, Ro_MQ2)
  else if sensor =? 7 then Some (MQ7_PIN, Ro_MQ7)
  else if sensor =? 4 then Some (MQ4_PIN, Ro_MQ4)
  else if sensor =? 9 then Some (MQ9_PIN, Ro_MQ9)
  else if sensor =? 135 then Some (MQ135_PIN, Ro_MQ135)
  else if sensor =? 8 then Some (MQ8_PIN, Ro_MQ8)
  else None.

(** The loop that fills [rsroList[0..N-1]]. *)
Fixpoint collect_points (hw : Board) (pin : Z) (Ro : float) (ppmList : list float)
    : M (option (list float)) :=
  match ppmList with
  | [] => ret (Some [])
  | ppm :: rest =>
      emit (Print Serial (Txt "Please expose sensor to ppm=")) ;;;
      emit (Println Serial (Num ppm 2)) ;;;
      println Serial "When ready press Enter in Serial Monitor to measure..." ;;;
      measured <- measureRsOverRo hw pin Ro 10 ;;
      emit (Print Serial (Txt "Measured Rs/Ro for ")) ;;;
      emit (Print Serial (Num ppm 2)) ;;;
      emit (Print Serial (Txt " ppm: ")) ;;;
      emit (Println Serial (Num measured 2)) ;;;
      if F32.isnan measured || F32.leb measured (F32.of_int 0)
      then println Serial "Invalid measurement detected; aborting calibration." ;;;
           ret None
      else r <- collect_points hw pin Ro rest ;; ret (option_map (cons measured) r)
  end.

Definition is_C (cmd : ascii) : bool :=
  Ascii.eqb cmd "C"%char || Ascii.eqb cmd "c"%char.

Definition handleSerialCalibration (lm : Libm) (hw : Board) (input : serial_input)
    : M calibration_exit :=
  match input with
  | NoData => ret NoCommand
  | Received cmd line =>
    if negb (is_C cmd) then ret NoCommand
    else
      println Serial "Starting calibration (multi-point)." ;;;
      println Serial "Format: <sensor> <N> <ppm1> <ppm2> ... <ppmN>" ;;;
      println Serial "Sensor codes: 2=MQ2,7=MQ7,4=MQ4,9=MQ9,135=MQ135,8=MQ8" ;;;
      println Serial "Example: 2 3 10 50 100  -- will calibrate MQ2 with 3 reference concentrations (10,50,100 ppm)." ;;;
      println Serial "Enter line now:" ;;;
      match line with
      | [] => println Serial "No input, aborting." ;;; ret Aborted
      | tok_sensor :: [] =>
          println Serial "Parse error: missing N" ;;; ret Aborted
      | tok_sensor :: tok_N :: toks =>
          let sensor := atoi tok_sensor in
          let N := atoi tok_N in
          if (N <? 2) || (10 <? N)
          then println Serial "Invalid N: must be between 2 and 10" ;;; ret Aborted
          else
            parsed <- parse_ppm (Z.to_nat N) toks ;;
            match parsed with
            | None => ret Aborted
            | Some ppmList =>
                match sensor_pin sensor with
                | None => println Serial "Unknown sensor code." ;;; ret Aborted
                | Some (pin, Ro_of) =>
                    Ro <- get Ro_of ;;
                    collected <- collect_points hw pin Ro ppmList ;;
                    match collected with
                    | None => ret Aborted
                    | Some rsroList =>
                        match computeMultiPointCurve lm ppmList rsroList N with
                        | None =>
                            println Serial "Curve fit failed (degenerate data). Try different points or more spread." ;;;
                            ret FitRejected
                        | Some (p0, p1, p2) =>
                            println Serial "Computed pcurve (p0, p1, p2):" ;;;
                            emit (Print Serial (Num p0 6)) ;;;
                            emit (Print Serial (Txt ", ")) ;;;
                            emit (Print Serial (Num p1 6)) ;;;
                            emit (Print Serial (Txt ", ")) ;;;
                            emit (Println Serial (Num p2 6)) ;;;
                            println Serial "You can copy these values into the sketch for this sensor's curve." ;;;
                            ret (CurveAccepted (p0, p1, p2))
                        end
                    end
                end
            end
      end
  end.

(** ** Main loop *)

(** One line of the measurement block of [loop]:
    [readCurveFromProgmem(C, tmpCurve);
     float g = MQGetGasPercentage(MQRead(PIN, Ro_X)/Ro_X, tmpCurve);] *)
Definition estimate (lm : Libm) (hw : Board) (pin : Z) (Ro_of : Device -> float)
    (progCurve : curve) : M float :=
  let tmpCurve := readCurveFromProgmem progCurve in
  Ro <- get Ro_of ;;
  rs <- MQRead hw pin Ro ;;
  ret (MQGetGasPercentage lm (F32.div rs Ro) tmpCurve).

Definition all_valid (l : list float) : bool :=
  forallb (fun x => negb (F32.isnan x)) l.

Definition ERROR_LINE : string := "Error: Invalid or missing sensor readings.".

(** The thirteen measurement lines of [loop]. *)
Definition measure (lm : Libm) (hw : Board) : M Estimates :=
  lpg <- estimate lm hw MQ2_PIN Ro_MQ2 MQ2Curve ;;
  co <- estimate lm hw MQ2_PIN Ro_MQ2 COCurve ;;
  smoke <- estimate lm hw MQ2_PIN Ro_MQ2 SmokeCurve ;;
  co_mq7 <- estimate lm hw MQ7_PIN Ro_MQ7 MQ7Curve ;;
  ch4 <- estimate lm hw MQ4_PIN Ro_MQ4 MQ4Curve ;;
  co_mq9 <- estimate lm hw MQ9_PIN Ro_MQ9 MQ9Curve ;;
  co2 <- estimate lm hw MQ135_PIN Ro_MQ135 CO2Curve ;;
  nh3 <- estimate lm hw MQ135_PIN Ro_MQ135 NH3Curve ;;
  nox <- estimate lm hw MQ135_PIN Ro_MQ135 NOxCurve ;;
  alcohol <- estimate lm hw MQ135_PIN Ro_MQ135 AlcoholCurve ;;
  benzene <- estimate lm hw MQ135_PIN Ro_MQ135 BenzeneCurve ;;
  h2 <- estimate lm hw MQ8_PIN Ro_MQ8 MQ8Curve ;;
  air <- estimate lm hw MQ8_PIN Ro_MQ8 AirCurve ;;
  ret {| LPG := lpg; CO := co; Smoke := smoke; CO_MQ7 := co_mq7; CH4 := ch4;
         CO_MQ9 := co_mq9; CO2 := co2; NH3 := nh3; NOx := nox;
         Alcohol := alcohol; Benzene := benzene; H2 := h2; Air := air |}.

(** The fifteen values tested by the [if] of [loop], in its order. *)
Definition tested (g : Estimates) (humidity temperature : float) : list float :=
  [LPG g; CO g; Smoke g; CO_MQ7 g; CH4 g; CO_MQ9 g; CO2 g; NH3 g; NOx g;
   Alcohol g; Benzene g; H2 g; Air g; humidity; temperature].

(** The [if (!isnan(lpg) && ... && !isnan(temperature)) { ... } else { ... }]
    statement of [loop] (with [JSON_ONLY] and [ENABLE_XBEE] set to 1). *)
Definition report (g : Estimates) (humidity temperature : float) : M unit :=
  if all_valid (tested g humidity temperature)
  then
    let SD_AQI :=
      calculateSDAQI (CO g) (CO_MQ7 g) (CO_MQ9 g) (CH4 g) (H2 g) (CO2 g)
                     (NOx g) (Air g) in
    let json := {|
      j_gases := g; j_Temperature := temperature; j_Humidity := humidity;
      j_SD_AQI := SD_AQI; j_SD_AQI_level := SD_AQI_level SD_AQI |} in
    emit (Println Serial (Json json)) ;;;
    emit (Println XBee (Json json))
  else println Serial ERROR_LINE.

(** One iteration of [loop]; [dht_humidity] and [dht_temperature] are what
    the DHT driver returns in this iteration. *)
Definition loop (lm : Libm) (hw : Board) (input : serial_input)
    (dht_humidity dht_temperature : float) : M unit :=
  handleSerialCalibration lm hw input ;;;
  g <- measure lm hw ;;
  let humidity := dht_humidity in
  let temperature := dht_temperature in
  report g humidity temperature.

(** ** Notions used in the statements *)

Definition zsum (l : list Z) : Z := fold_right Z.add 0 l.

(** The ADC of the board is a 10-bit converter on [pin]. *)
Definition adc_range (hw : Board) (pin : Z) : Prop :=
  forall k, 0 <= adc_code hw pin k <= 1023.

(** A board whose successive ADC reads return [codes], then mid-scale. *)
Definition demo_board (codes : list Z) : Board :=
  {| adc_code := fun _ k => nth k codes 512 |}.

(** [d'] differs from [d] at most by the ADC read counter and the lines
    written: no global of the sketch was assigned. *)
Definition io_only (d d' : Device) : Prop :=
  exists n o, d' = with_io n o d.

(** The [n] codes [lo], [lo + 1], ... *)
Definition codes_from (lo : Z) (n : nat) : list Z :=
  map (fun i => lo + Z.of_nat i) (seq 0 n).

(** A finite float above zero. *)
Definition positive_finite (x : float) : bool :=
  F32.is_finite x && F32.ltb (F32.of_int 0) x.

(** The six pins that [MQRead] smooths. *)
Definition mq_pins : list Z :=
  [MQ2_PIN; MQ7_PIN; MQ4_PIN; MQ9_PIN; MQ135_PIN; MQ8_PIN].

(** The tuple of smoothed states after the state of pin [p] went through
    [ema] with the observation [rs]. *)
Definition smoothed_after (p : Z) (rs : float)
    (s : float * float * float * float * float * float)
    : float * float * float * float * float * float :=
  let '(s2, s7, s4, s9, s135, s8) := s in
  if p =? MQ2_PIN then (ema s2 rs, s7, s4, s9, s135, s8)
  else if p =? MQ7_PIN then (s2, ema s7 rs, s4, s9, s135, s8)
  else if p =? MQ4_PIN then (s2, s7, ema s4 rs, s9, s135, s8)
  else if p =? MQ9_PIN then (s2, s7, s4, ema s9 rs, s135, s8)
  else if p =? MQ135_PIN then (s2, s7, s4, s9, ema s135 rs, s8)
  else if p =? MQ8_PIN then (s2, s7, s4, s9, s135, ema s8 rs)
  else s.

(** A board that reads 93 five times, then stays saturated at 1023. *)
Definition saturating_board : Board :=
  demo_board (repeat 93 5 ++ repeat 1023 25).

(** The weights of the composite index, in the order
    CO, CO (MQ7), CO (MQ9), CH4, H2, CO2, NOx, Air. *)
Definition SDAQI_weights : list float :=
  [F32.lit 5 2; F32.lit 10 2; F32.lit 10 2; F32.lit 10 2;
   F32.lit 5 2; F32.lit 50 2; F32.lit 10 2; F32.lit 5 2].

(** The linear combination of the specification: each estimate times its
    weight, the products added from left to right. *)
Definition linear_combination (xs ws : list float) : float :=
  match combine xs ws with
  | [] => F32.zero
  | (x, w) :: rest =>
      fold_left (fun acc xw => F32.add acc (F32.mul (fst xw) (snd xw)))
                rest (F32.mul x w)
  end.

Definition zero_estimates : Estimates := {|
  LPG := F32.zero; CO := F32.zero; Smoke := F32.zero; CO_MQ7 := F32.zero;
  CH4 := F32.zero; CO_MQ9 := F32.zero; CO2 := F32.zero; NH3 := F32.zero;
  NOx := F32.zero; Alcohol := F32.zero; Benzene := F32.zero; H2 := F32.zero;
  Air := F32.zero |}.

(** The events a computation writes when started from [d], oldest first. *)
Definition printed {A : Type} (c : M A) (d : Device) : list event :=
  rev (output (snd (c (with_io (adc_reads d) [] d)))).

(** The alert of the specification for one value: its message when the
    value is above its own ceiling. *)
Definition breach (value ceiling : float) (msg : string) : list string :=
  if F32.gtb value ceiling then [msg] else [].

Definition alerts (co2 co lpg nox benzene humidity : float) : list string :=
  breach co2 MAX_CO2_THRESHOLD ALERT_CO2 ++
  breach co MAX_CO_THRESHOLD ALERT_CO ++
  breach lpg MAX_HYDROCARBONS_THRESHOLD ALERT_LPG ++
  breach nox MAX_NOX_THRESHOLD ALERT_NOX ++
  breach benzene MAX_HYDROCARBONS_THRESHOLD ALERT_BENZENE ++
  breach humidity MAX_MOISTURE_THRESHOLD ALERT_HUMIDITY.

(** Every alert goes to the serial port and to the radio. *)
Definition broadcast (msgs : list string) : list event :=
  flat_map (fun m => [Println Serial (Txt m); Println XBee (Txt m)]) msgs.

(** The float next above [x]. *)
Definition next_up (x : float) : float := SFsucc F32.prec F32.emax x.

(** Equality of floats as numbers: the same float, or two floats that
    compare equal (the two zeros). *)
Definition same_number (a b : float) : Prop := a = b \/ SFeqb a b = true.

(** A float that is neither NaN nor a zero. *)
Definition nonzero_number (x : float) : bool :=
  match x with
  | S754_finite _ _ _ | S754_infinity _ => true
  | _ => false
  end.

(** A function given by finitely many of its values, NaN elsewhere. *)
Fixpoint lookup (tbl : list (float * float)) (x : float) : float :=
  match tbl with
  | [] => F32.NAN
  | (a, v) :: rest => if SFeqb a x then v else lookup rest x
  end.

Definition table_libm (logs log10s pow10s : list (float * float)) : Libm := {|
  log := lookup logs;
  log10 := lookup log10s;
  pow := fun b y => if SFeqb b (F32.of_int 10) then lookup pow10s y else F32.NAN
|}.

(** What a C99 [math.h] does on NaN: [log] and [pow(10, .)] return NaN. *)
Definition nan_propagating (lm : Libm) : Prop :=
  log lm F32.NAN = F32.NAN /\ pow lm (F32.of_int 10) F32.NAN = F32.NAN.

(** A [math.h] known at the arguments the scenarios below evaluate it at,
    by its correctly rounded binary32 values: [log] at three ratios near
    e, e^2 and e^1.5 and at 2 and 10; [log10] at 10 and 100; [pow(10, .)]
    at 1.5, at the thirteen exponents the PROGMEM curves give for the
    ratio 2 (in the order of [loop]), and at the exponent the curve fitted
    in the calibration scenario gives for the ratio 2. *)
Definition reference_libm : Libm :=
  table_libm
    [ (F32.lit 271828198 8, F32.of_int 1);
      (F32.lit 738905573 8, F32.of_int 2);
      (F32.lit 448168898 8, F32.lit 15 1);
      (F32.of_int 2, F32.lit 693147182 9);
      (F32.of_int 10, F32.lit 230258512 8) ]
    [ (F32.of_int 10, F32.of_int 1);
      (F32.of_int 100, F32.of_int 2) ]
    [ (F32.lit 15 1, F32.lit 31622776 6);
      (F32.lit 263027191 9, F32.lit 183242917 8);      (* LPG *)
      (F32.lit 158097887 8, F32.lit 381047287 7);      (* CO *)
      (F32.lit 132404649 8, F32.lit 210885391 7);      (* Smoke *)
      (F32.lit 320981026 9, F32.lit 209402108 8);      (* CO, MQ-7 *)
      (F32.neg_lit 807950795 9, F32.lit 155614197 9);  (* CH4 *)
      (F32.lit 118189514 8, F32.lit 152018042 7);      (* CO, MQ-9 *)
      (F32.lit 237897897 8, F32.lit 239319992 6);      (* CO2 *)
      (F32.lit 225648379 8, F32.lit 180502731 6);      (* NH3 *)
      (F32.lit 206061649 8, F32.lit 114978462 6);      (* NOx *)
      (F32.lit 194815087 8, F32.lit 887464294 7);      (* Alcohol *)
      (F32.lit 211713195 8, F32.lit 130957977 6);      (* Benzene *)
      (F32.lit 126339614 9, F32.lit 133764112 8);      (* H2 *)
      (F32.lit 561029136 9, F32.lit 363939452 8);      (* Air *)
      (F32.lit 100000012 8, F32.lit 100000029 7) ].    (* fitted curve *)

(** The token the operator types for the integer [n]. *)
Definition num_token (n : Z) : token := {| atoi := n; atof := F32.of_int n |}.

(** A board on which every pin holds one code. *)
Definition steady_board (code : Z -> Z) : Board :=
  {| adc_code := fun pin _ => code pin |}.

(** The ADC reads [setup] makes when no sample is valid: six sensors,
    fifty samples each, five filtered reads per sample, five attempts per
    read. *)
Definition BOOT_READS : nat := 6 * 50 * 5 * 5.

(** A board whose inputs read 0 while [setup] runs (the sensors are not
    powered yet) and which behaves as [later] from then on. *)
Definition cold_start (later : Board) : Board :=
  {| adc_code := fun pin k =>
       if (k <? BOOT_READS)%nat then 0
       else adc_code later pin (k - BOOT_READS) |}.

(** The device when [setup] has run on [hw], at the first call of [loop]. *)
Definition booted (hw : Board) : Device := snd (setup hw power_on).

(** After start-up the board reads 341 for the first calibration point
    (fifty reads), 93 for the second, and 341 afterwards. *)
Definition calibration_board : Board :=
  cold_start {| adc_code := fun _ k => nth k (repeat 341 50 ++ repeat 93 50) 341 |}.

(** A pin whose ADC reads 0 at every attempt. *)
Definition dead_pin (hw : Board) (pin : Z) : Prop :=
  forall k, adc_code hw pin k = 0.

(** The JSON object of a cycle whose fifteen values are all valid. *)
Definition payload_of (g : Estimates) (humidity temperature : float) : Payload :=
  let SD_AQI :=
    calculateSDAQI (CO g) (CO_MQ7 g) (CO_MQ9 g) (CH4 g) (H2 g) (CO2 g)
                   (NOx g) (Air g) in
  {| j_gases := g; j_Temperature := temperature; j_Humidity := humidity;
     j_SD_AQI := SD_AQI; j_SD_AQI_level := SD_AQI_level SD_AQI |}.

(** The session of the scenario: [C], then the line [2 2 10 100]
    (sensor MQ-2, two points, 10 ppm and 100 ppm). *)
Definition two_point_session : serial_input :=
  Received "C" [num_token 2; num_token 2; num_token 10; num_token 100].

(** After start-up every input reads 341. *)
Definition healthy_board : Board := cold_start (steady_board (fun _ => 341)).

(** As [healthy_board], with the MQ-7 input stuck at 0. *)
Definition faulty_board : Board :=
  cold_start (steady_board (fun pin => if pin =? MQ7_PIN then 0 else 341)).

(** A code at a rail of the converter: not strictly between 0 and 1023. *)
Definition rail (v : Z) : bool := negb ((0 <? v) && (v <? 1023)).

(** ** Further notions *)

(** A float that is a number and is not below zero: a zero, a positive
    finite float or +infinity. *)
Definition nonneg (x : float) : bool :=
  match x with
  | S754_nan => false
  | S754_zero _ => true
  | S754_infinity s | S754_finite s _ _ => negb s
  end.

(** A finite float above zero. *)
Definition positive_float (x : float) : bool :=
  match x with
  | S754_finite false _ _ => true
  | _ => false
  end.

(** The place of a float that is not NaN in the order of [SFcompare]:
    its class (-infinity, negative, zero, positive, +infinity), then
    exponent and mantissa, negated for negative floats. *)
Definition key (x : float) : Z * Z * Z :=
  match x with
  | S754_nan => (0, 0, 0)
  | S754_zero _ => (0, 0, 0)
  | S754_infinity true => (-2, 0, 0)
  | S754_infinity false => (2, 0, 0)
  | S754_finite true m e => (-1, - e, Zneg m)
  | S754_finite false m e => (1, e, Zpos m)
  end.

Definition key_lt (a b : Z * Z * Z) : Prop :=
  let '(a1, a2, a3) := a in
  let '(b1, b2, b3) := b in
  a1 < b1 \/ (a1 = b1 /\ (a2 < b2 \/ (a2 = b2 /\ a3 < b3))).

(** The rung of the ladder of [loop] an index falls on, from 0
    (the first test, [SD_AQI <= 50]) to 5 (the final [else]). *)
Definition rung (SD_AQI : float) : nat :=
  if F32.leb SD_AQI (F32.of_int 50) then 0
  else if F32.leb SD_AQI (F32.of_int 100) then 1
  else if F32.leb SD_AQI (F32.of_int 150) then 2
  else if F32.leb SD_AQI (F32.of_int 200) then 3
  else if F32.leb SD_AQI (F32.of_int 300) then 4
  else 5.

Definition SD_AQI_labels : list string :=
  ["Excellent"; "Good"; "Moderate"; "Unhealthy for Sensitive Groups";
   "Unhealthy"; "Hazardous"]%string.

(** The global [Ro_*] of a sensor pin, if any. *)
Definition Ro (mq_pin : Z) (d : Device) : option float :=
  if mq_pin =? MQ2_PIN then Some (Ro_MQ2 d)
  else if mq_pin =? MQ7_PIN then Some (Ro_MQ7 d)
  else if mq_pin =? MQ4_PIN then Some (Ro_MQ4 d)
  else if mq_pin =? MQ9_PIN then Some (Ro_MQ9 d)
  else if mq_pin =? MQ135_PIN then Some (Ro_MQ135 d)
  else if mq_pin =? MQ8_PIN then Some (Ro_MQ8 d)
  else None.

(** The twelve float globals of the sketch. *)
Definition globals (d : Device) : list float :=
  [Ro_MQ2 d; Ro_MQ7 d; Ro_MQ4 d; Ro_MQ9 d; Ro_MQ135 d; Ro_MQ8 d;
   SmoothedRS_MQ2 d; SmoothedRS_MQ7 d; SmoothedRS_MQ4 d;
   SmoothedRS_MQ9 d; SmoothedRS_MQ135 d; SmoothedRS_MQ8 d].

(** The devices a run can be in at the start of a cycle: after [setup],
    then after any number of calls of [loop], whatever the serial port and
    the DHT sensor deliver. *)
Inductive reachable (lm : Libm) (hw : Board) : Device -> Prop :=
| reach_setup : reachable lm hw (booted hw)
| reach_loop (d : Device) (input : serial_input) (humidity temperature : float) :
    reachable lm hw d ->
    reachable lm hw (snd (loop lm hw input humidity temperature d)).

Definition CALIBRATION_FAILED : string :=
  "Calibration failed: no valid samples. Using default Ro=10.".

Definition tuple6 (t : float * float * float * float * float * float)
    : list float :=
  let '(a, b, c, d, e, f) := t in [a; b; c; d; e; f].

(** Every float global of the device is a number that is not below zero. *)
Definition sane (d : Device) : Prop :=
  Forall (fun x => nonneg x = true) (globals d).

Definition alert_messages : list string :=
  [ALERT_CO2; ALERT_CO; ALERT_LPG; ALERT_NOX; ALERT_BENZENE; ALERT_HUMIDITY].

Definition is_alert (s : string) : bool :=
  existsb (String.eqb s) alert_messages.

(** The port an event is written to. *)
Definition port_of (e : event) : port :=
  match e with Print p _ | Println p _ => p end.

(** What a cycle may write: on the radio the JSON object alone, on the
    serial port anything but the text of an alert. *)
Definition cycle_event (e : event) : bool :=
  match e with
  | Println XBee (Json _) => true
  | Print XBee _ | Println XBee _ => false
  | Print Serial (Txt s) | Println Serial (Txt s) => negb (is_alert s)
  | Print Serial _ | Println Serial _ => true
  end.

(** [d'] has the output of [d] with further events, all accepted by [P],
    written after it. *)
Definition appends (P : event -> bool) (d d' : Device) : Prop :=
  exists new, output d' = new ++ output d /\ forallb P new = true.




Definition INVALID_MEASUREMENT : string :=
  "Invalid measurement detected; aborting calibration.".

Definition INVALID_ADC : string := "Error: Invalid ADC value (0)".

(** What the validation loop of [computeMultiPointCurve] lets through. *)
Definition fit_point_ok (pr : float * float) : bool :=
  negb (F32.leb (snd pr) (F32.of_int 0) || F32.leb (fst pr) (F32.of_int 0)).

(** The running sum [sumx] of [computeMultiPointCurve] over ratios. *)
Definition sum_ln (lm : Libm) (rsro : list float) : float :=
  fold_left (fun s r => F32.add s (log lm r)) rsro (F32.of_int 0).

(** A powered board on which every input reads 341. *)
Definition warm_board : Board := steady_board (fun _ => 341).




(** * Properties *)

(** ** Sampler *)

Lemma scan_fold (l : list Z) (a b c : Z) :
  fold_left scan_step l (a, b, c) =
  (fold_left Z.min l a, fold_left Z.max l b, c + zsum l).
Proof.
  revert a b c; induction l as [|s l IH]; intros a b c; simpl.
  - now rewrite Z.add_0_r.
  - rewrite Z.gtb_ltb.
    replace (if s <? a then s else a) with (Z.min a s)
      by (destruct (Z.ltb_spec s a); lia).
    replace (if b <? s then s else b) with (Z.max b s)
      by (destruct (Z.ltb_spec b s); lia).
    rewrite IH. f_equal. lia.
Qed.

Lemma fold_min_le (l : list Z) (a : Z) :
  fold_left Z.min l a <= a /\ Forall (fun s => fold_left Z.min l a <= s) l.
Proof.
  revert a; induction l as [|s l IH]; intros a; simpl.
  - split; [lia | constructor].
  - destruct (IH (Z.min a s)) as [H1 H2]. split; [lia|].
    constructor; [lia | exact H2].
Qed.

Lemma fold_max_ge (l : list Z) (b : Z) :
  b <= fold_left Z.max l b /\ Forall (fun s => s <= fold_left Z.max l b) l.
Proof.
  revert b; induction l as [|s l IH]; intros b; simpl.
  - split; [lia | constructor].
  - destruct (IH (Z.max b s)) as [H1 H2]. split; [lia|].
    constructor; [lia | exact H2].
Qed.

Lemma fold_min_in (l : list Z) (a : Z) :
  fold_left Z.min l a = a \/ In (fold_left Z.min l a) l.
Proof.
  revert a; induction l as [|s l IH]; intros a; simpl; [now left|].
  destruct (IH (Z.min a s)) as [H|H]; [|now right; right].
  rewrite H. destruct (Z.min_spec a s) as [[_ E]|[_ E]]; rewrite E; auto.
Qed.

Lemma fold_max_in (l : list Z) (b : Z) :
  fold_left Z.max l b = b \/ In (fold_left Z.max l b) l.
Proof.
  revert b; induction l as [|s l IH]; intros b; simpl; [now left|].
  destruct (IH (Z.max b s)) as [H|H]; [|now right; right].
  rewrite H. destruct (Z.max_spec b s) as [[_ E]|[_ E]]; rewrite E; auto.
Qed.

Lemma zsum_perm (l l' : list Z) : Permutation l l' -> zsum l = zsum l'.
Proof. induction 1; simpl; lia. Qed.

Lemma in_perm_cons (x : Z) (l : list Z) :
  In x l -> exists l', Permutation l (x :: l').
Proof.
  intros H. destruct (in_split _ _ H) as (l1 & l2 & ->).
  exists (l1 ++ l2). symmetry. apply Permutation_middle.
Qed.

(** Dropping one smallest and one largest sample of an in-range array. *)
Lemma scan_trim (samples : list Z) :
  (2 <= length samples)%nat ->
  Forall (fun s => 0 <= s <= 1023) samples ->
  exists lo hi rest,
    scan samples = (lo, hi, zsum samples) /\
    Permutation samples (lo :: hi :: rest) /\
    Forall (fun s => lo <= s <= hi) samples.
Proof.
  intros Hlen Hr. unfold scan. rewrite scan_fold. simpl.
  set (lo := fold_left Z.min samples 1024).
  set (hi := fold_left Z.max samples (-1)).
  assert (Hlo : Forall (fun s => lo <= s) samples) by apply fold_min_le.
  assert (Hhi : Forall (fun s => s <= hi) samples) by apply fold_max_ge.
  assert (Hne : exists s, In s samples).
  { destruct samples; simpl in Hlen; [lia | eexists; now left]. }
  destruct Hne as (s0 & Hs0).
  rewrite Forall_forall in Hr, Hlo, Hhi.
  assert (Ilo : In lo samples).
  { destruct (fold_min_in samples 1024) as [E|I]; [|exact I].
    specialize (Hlo _ Hs0). specialize (Hr _ Hs0). fold lo in E. lia. }
  assert (Ihi : In hi samples).
  { destruct (fold_max_in samples (-1)) as [E|I]; [|exact I].
    specialize (Hhi _ Hs0). specialize (Hr _ Hs0). fold hi in E. lia. }
  destruct (in_perm_cons _ _ Ilo) as (l1 & P1).
  assert (Ihi1 : In hi l1).
  { pose proof (Permutation_in _ P1 Ihi) as [E|I]; [|exact I].
    destruct l1 as [|x l1].
    - apply Permutation_length in P1. simpl in P1. lia.
    - assert (Hx : In x samples)
        by (apply (Permutation_in _ (Permutation_sym P1)); right; now left).
      specialize (Hlo _ Hx). specialize (Hhi _ Hx).
      left. lia. }
  destruct (in_perm_cons _ _ Ihi1) as (rest & P2).
  exists lo, hi, rest. split; [reflexivity|]. split.
  - etransitivity; [exact P1|]. now constructor.
  - apply Forall_forall. intros s Hs. split; [apply Hlo | apply Hhi]; exact Hs.
Qed.

Lemma trim_mean_drops_min_max (n : nat) (samples : list Z) :
  length samples = n -> (3 <= n)%nat ->
  Forall (fun s => 0 <= s <= 1023) samples ->
  exists lo hi rest,
    Permutation samples (lo :: hi :: rest) /\
    Forall (fun s => lo <= s <= hi) samples /\
    length rest = (n - 2)%nat /\
    trim_mean n samples = Z.quot (zsum rest) (Z.of_nat (length rest)).
Proof.
  intros Hlen Hn Hr.
  destruct (scan_trim samples) as (lo & hi & rest & Hs & P & B); [lia | exact Hr |].
  exists lo, hi, rest. split; [exact P|]. split; [exact B|].
  assert (L : length rest = (n - 2)%nat).
  { apply Permutation_length in P. simpl in P. lia. }
  split; [exact L|].
  unfold trim_mean. rewrite Hs.
  destruct (Z.ltb_spec 2 (Z.of_nat n)); [|lia].
  rewrite (zsum_perm _ _ P). simpl. rewrite L.
  f_equal; lia.
Qed.

Lemma trim_mean_plain (n : nat) (samples : list Z) :
  (n < 3)%nat -> trim_mean n samples = Z.quot (zsum samples) (Z.of_nat n).
Proof.
  intros Hn. unfold trim_mean, scan. rewrite scan_fold.
  destruct (Z.ltb_spec 2 (Z.of_nat n)); [lia | reflexivity].
Qed.

Lemma retry_loop_range (hw : Board) (pin : Z) (n : nat) (val : Z) (d : Device) :
  adc_range hw pin -> 0 <= val <= 1023 ->
  0 <= fst (retry_loop hw pin n val d) <= 1023.
Proof.
  intros Hhw. revert val d; induction n as [|n IH]; intros val d Hval; simpl.
  - exact Hval.
  - unfold bind, analogRead.
    destruct ((0 <? _) && (_ <? 1023)); [apply Hhw | apply IH, Hhw].
Qed.

(** A retried read returns the first of the next [n] codes that is not at
    a rail, or the last of them when all are. *)
Lemma retry_loop_first_valid (hw : Board) (pin : Z) (n : nat) (val : Z)
    (d : Device) :
  (0 < n)%nat ->
  exists j, (j < n)%nat /\
    retry_loop hw pin n val d =
      (adc_code hw pin (adc_reads d + j),
       with_io (adc_reads d + S j) (output d) d) /\
    (forall i, (i < j)%nat -> rail (adc_code hw pin (adc_reads d + i)) = true) /\
    (rail (adc_code hw pin (adc_reads d + j)) = false \/ j = (n - 1)%nat).
Proof.
  revert val d; induction n as [|n IH]; intros val d Hn; [lia|].
  simpl. unfold bind, analogRead.
  destruct ((0 <? adc_code hw pin (adc_reads d)) &&
            (adc_code hw pin (adc_reads d) <? 1023)) eqn:E.
  - exists 0%nat. rewrite Nat.add_0_r, Nat.add_1_r.
    split; [lia|]. split; [reflexivity|]. split; [intros i Hi; lia|].
    left. unfold rail. now rewrite E.
  - destruct n as [|n].
    + exists 0%nat. rewrite Nat.add_0_r, Nat.add_1_r.
      split; [lia|]. split; [reflexivity|]. split; [intros i Hi; lia|].
      now right.
    + destruct (IH (adc_code hw pin (adc_reads d))
                   (with_io (S (adc_reads d)) (output d) d) ltac:(lia))
        as (j & Hj & Hrun & Hbefore & Hlast).
      simpl adc_reads in *. simpl output in *.
      exists (S j). split; [lia|]. split.
      * rewrite Hrun. rewrite <- !Nat.add_succ_comm. reflexivity.
      * split.
        -- intros [|i] Hi.
           ++ rewrite Nat.add_0_r. unfold rail. now rewrite E.
           ++ rewrite <- Nat.add_succ_comm. apply Hbefore. lia.
        -- rewrite <- Nat.add_succ_comm.
           destruct Hlast as [H|H]; [now left | right; lia].
Qed.

Lemma read_samples_S (hw : Board) (pin : Z) (n : nat) (d : Device) :
  read_samples hw pin (S n) d =
  let (s, d1) := analogReadWithRetries hw pin d in
  let (rest, d2) := read_samples hw pin n d1 in (s :: rest, d2).
Proof.
  simpl. unfold bind.
  destruct (analogReadWithRetries hw pin d) as [s d1].
  destruct (read_samples hw pin n d1) as [rest d2]. reflexivity.
Qed.

Lemma read_samples_range (hw : Board) (pin : Z) (n : nat) (d : Device) :
  adc_range hw pin ->
  List.length (fst (read_samples hw pin n d)) = n /\
  Forall (fun s => 0 <= s <= 1023) (fst (read_samples hw pin n d)).
Proof.
  intros Hhw. revert d; induction n as [|n IH]; intros d.
  - simpl. split; [reflexivity | constructor].
  - rewrite read_samples_S.
    pose proof (retry_loop_range hw pin ANALOG_READ_RETRIES 0 d Hhw ltac:(lia)) as Hs.
    fold (analogReadWithRetries hw pin d) in Hs.
    destruct (analogReadWithRetries hw pin d) as [s d1].
    specialize (IH d1). destruct (read_samples hw pin n d1) as [rest d2].
    simpl in *. destruct IH as [L R]. split; [now rewrite L | now constructor].
Qed.

Lemma five_samples (hw : Board) (pin : Z) (d : Device) :
  exists s1 d1 s2 d2 s3 d3 s4 d4 s5 d5,
    analogReadWithRetries hw pin d = (s1, d1) /\
    analogReadWithRetries hw pin d1 = (s2, d2) /\
    analogReadWithRetries hw pin d2 = (s3, d3) /\
    analogReadWithRetries hw pin d3 = (s4, d4) /\
    analogReadWithRetries hw pin d4 = (s5, d5) /\
    read_samples hw pin 5 d = ([s1; s2; s3; s4; s5], d5).
Proof.
  do 5 (rewrite read_samples_S;
        match goal with
        | |- context [analogReadWithRetries hw pin ?x] =>
            destruct (analogReadWithRetries hw pin x) as [? ?] eqn:?
        end).
  simpl. repeat eexists; eassumption.
Qed.

(** C7. [readAnalogFilteredRaw] takes [READ_SAMPLE_TIMES = 5] samples, each
    by its own call of [analogReadWithRetries] (the first of up to five
    reads that is not at a rail, else the fifth); on ADC codes (0..1023) it
    drops one smallest and one largest sample and returns the truncated
    mean of the other three; on the samples 10, 1000, 50, 52, 48 it returns
    50; with a sample count of 1 or 2 it returns the truncated mean of all
    samples. *)
Theorem C7_filtered_sampler (hw : Board) (pin : Z) (d : Device) :
  adc_range hw pin ->
  READ_SAMPLE_TIMES = 5%nat /\
  (forall d0, exists j, (j < 5)%nat /\
     analogReadWithRetries hw pin d0 =
       (adc_code hw pin (adc_reads d0 + j),
        with_io (adc_reads d0 + S j) (output d0) d0) /\
     (forall i, (i < j)%nat -> rail (adc_code hw pin (adc_reads d0 + i)) = true) /\
     (rail (adc_code hw pin (adc_reads d0 + j)) = false \/ j = 4%nat)) /\
  (exists s1 d1 s2 d2 s3 d3 s4 d4 s5 d5 lo hi rest,
     analogReadWithRetries hw pin d = (s1, d1) /\
     analogReadWithRetries hw pin d1 = (s2, d2) /\
     analogReadWithRetries hw pin d2 = (s3, d3) /\
     analogReadWithRetries hw pin d3 = (s4, d4) /\
     analogReadWithRetries hw pin d4 = (s5, d5) /\
     Permutation [s1; s2; s3; s4; s5] (lo :: hi :: rest) /\
     Forall (fun s => lo <= s <= hi) [s1; s2; s3; s4; s5] /\
     List.length rest = 3%nat /\
     readAnalogFilteredRaw hw pin d = (Z.quot (zsum rest) 3, d5)) /\
  readAnalogFilteredRaw (demo_board [10; 1000; 50; 52; 48]) pin power_on =
    (50, with_io 5 [] power_on) /\
  (forall n, (0 < n < 3)%nat ->
     exists samples d',
       read_samples hw pin n d = (samples, d') /\
       List.length samples = n /\
       readAnalogFilteredRaw_with n hw pin d =
         (Z.quot (zsum samples) (Z.of_nat n), d')).
Proof.
  intros Hhw. split; [reflexivity|]. split; [|split; [|split]].
  - intros d0. apply (retry_loop_first_valid hw pin 5 0 d0). lia.
  - destruct (five_samples hw pin d)
      as (s1 & d1 & s2 & d2 & s3 & d3 & s4 & d4 & s5 & d5 &
          E1 & E2 & E3 & E4 & E5 & E).
    destruct (read_samples_range hw pin 5 d Hhw) as [L R].
    rewrite E in R. simpl in R. clear L.
    destruct (trim_mean_drops_min_max 5 [s1; s2; s3; s4; s5] eq_refl ltac:(lia) R)
      as (lo & hi & rest & P & B & Lr & T).
    exists s1, d1, s2, d2, s3, d3, s4, d4, s5, d5, lo, hi, rest.
    repeat (split; [assumption|]).
    unfold readAnalogFilteredRaw, readAnalogFilteredRaw_with, bind.
    change READ_SAMPLE_TIMES with 5%nat. rewrite E. unfold ret.
    rewrite T, Lr. reflexivity.
  - reflexivity.
  - intros n Hn.
    destruct (read_samples_range hw pin n d Hhw) as [L _].
    destruct (read_samples hw pin n d) as [samples d'] eqn:E. simpl in L.
    exists samples, d'. split; [reflexivity|]. split; [exact L|].
    unfold readAnalogFilteredRaw_with, bind. rewrite E. unfold ret.
    rewrite trim_mean_plain by lia. reflexivity.
Qed.

Lemma demo_board_range (codes : list Z) (pin : Z) :
  Forall (fun s => 0 <= s <= 1023) codes -> adc_range (demo_board codes) pin.
Proof.
  intros H k. simpl. revert k. induction H as [|c l Hc _ IH]; intros [|k]; simpl;
    try lia; apply IH.
Qed.

Lemma C7_filtered_sampler_witness :
  adc_range (demo_board [10; 1000; 50; 52; 48]) MQ2_PIN /\
  readAnalogFilteredRaw (demo_board [10; 1000; 50; 52; 48]) MQ2_PIN power_on =
    (50, with_io 5 [] power_on).
Proof.
  assert (H : adc_range (demo_board [10; 1000; 50; 52; 48]) MQ2_PIN).
  { apply demo_board_range. repeat constructor; lia. }
  split; [exact H|].
  exact (proj1 (proj2 (proj2 (proj2
    (C7_filtered_sampler (demo_board [10; 1000; 50; 52; 48]) MQ2_PIN power_on H))))).
Defined.

(** ** Frame of the I/O primitives *)

Lemma io_only_refl (d : Device) : io_only d d.
Proof. exists (adc_reads d), (output d). now destruct d. Qed.

Lemma io_only_trans (d1 d2 d3 : Device) :
  io_only d1 d2 -> io_only d2 d3 -> io_only d1 d3.
Proof. intros (n & o & ->) (n' & o' & ->). now exists n', o'. Qed.

Lemma io_only_globals (d d' : Device) :
  io_only d d' -> baselines d' = baselines d /\ smoothed d' = smoothed d.
Proof. intros (n & o & ->). split; reflexivity. Qed.

Lemma emit_io (e : event) (d : Device) : io_only d (snd (emit e d)).
Proof. now eexists _, _. Qed.

Lemma analogRead_io (hw : Board) (pin : Z) (d : Device) :
  io_only d (snd (analogRead hw pin d)).
Proof. now eexists _, _. Qed.

Lemma bind_io {A B : Type} (c : M A) (k : A -> M B) (d : Device) :
  io_only d (snd (c d)) ->
  (forall a d1, io_only d1 (snd (k a d1))) ->
  io_only d (snd (bind c k d)).
Proof.
  intros Hc Hk. unfold bind. destruct (c d) as [a d1].
  eapply io_only_trans; [exact Hc | apply Hk].
Qed.

Lemma retry_loop_io (hw : Board) (pin : Z) (n : nat) (val : Z) (d : Device) :
  io_only d (snd (retry_loop hw pin n val d)).
Proof.
  revert val d; induction n as [|n IH]; intros val d; simpl.
  - apply io_only_refl.
  - apply bind_io; [apply analogRead_io|].
    intros v d1. destruct (_ && _); [apply io_only_refl | apply IH].
Qed.

Lemma read_samples_io (hw : Board) (pin : Z) (n : nat) (d : Device) :
  io_only d (snd (read_samples hw pin n d)).
Proof.
  revert d; induction n as [|n IH]; intros d; simpl.
  - apply io_only_refl.
  - apply bind_io; [apply retry_loop_io|]. intros s d1.
    apply bind_io; [apply IH|]. intros; apply io_only_refl.
Qed.

Lemma readAnalogFilteredRaw_io (hw : Board) (pin : Z) (d : Device) :
  io_only d (snd (readAnalogFilteredRaw hw pin d)).
Proof.
  apply bind_io; [apply read_samples_io|]. intros; apply io_only_refl.
Qed.

Lemma MQResistanceCalculation_io (raw : Z) (d : Device) :
  io_only d (snd (MQResistanceCalculation raw d)).
Proof.
  unfold MQResistanceCalculation. destruct (raw =? 0).
  - apply bind_io; [apply emit_io|]. intros; apply io_only_refl.
  - apply io_only_refl.
Qed.

(** ** Resistance model *)

Lemma codes_from_in (lo hi x : Z) :
  lo <= x < hi -> In x (codes_from lo (Z.to_nat (hi - lo))).
Proof.
  intros H. unfold codes_from. apply in_map_iff.
  exists (Z.to_nat (x - lo)). split; [lia|]. apply in_seq. lia.
Qed.

Lemma resistance_table :
  forallb (fun raw => positive_finite (resistance raw)) (codes_from 1 1022) = true.
Proof. vm_compute. reflexivity. Qed.

Lemma resistance_positive (raw : Z) :
  1 <= raw < 1023 -> positive_finite (resistance raw) = true.
Proof.
  intros H. pose proof resistance_table as T.
  rewrite forallb_forall in T. apply T.
  change 1022%nat with (Z.to_nat (1023 - 1)). now apply codes_from_in.
Qed.

Lemma MQResistanceCalculation_nonzero (raw : Z) (d : Device) :
  raw <> 0 -> MQResistanceCalculation raw d = (resistance raw, d).
Proof.
  intros H. unfold MQResistanceCalculation.
  destruct (Z.eqb_spec raw 0); [contradiction | reflexivity].
Qed.

(** C9. [MQResistanceCalculation] computes
    [RL_VALUE * (1023 - raw) / raw] with [RL_VALUE = 10]; for every code
    [1 <= raw < 1023] the result is a finite float above zero; for
    [raw = 0] it prints an error and returns NaN without dividing. *)
Theorem C9_resistance_model (raw : Z) (d : Device) :
  RL_VALUE = 10 /\
  (raw <> 0 ->
   MQResistanceCalculation raw d =
     (F32.div (F32.mul (F32.of_int RL_VALUE) (F32.of_int (1023 - raw)))
              (F32.of_int raw), d)) /\
  (1 <= raw < 1023 ->
   F32.is_finite (fst (MQResistanceCalculation raw d)) = true /\
   F32.ltb (F32.of_int 0) (fst (MQResistanceCalculation raw d)) = true) /\
  MQResistanceCalculation 0 d =
    (F32.NAN,
     with_io (adc_reads d)
       (Println Serial (Txt "Error: Invalid ADC value (0)") :: output d) d).
Proof.
  split; [reflexivity|]. split; [|split].
  - intros H. now rewrite MQResistanceCalculation_nonzero.
  - intros H. rewrite MQResistanceCalculation_nonzero by lia. simpl.
    pose proof (resistance_positive raw H) as P.
    unfold positive_finite in P. now apply andb_true_iff in P.
  - reflexivity.
Qed.

Lemma C9_resistance_model_witness :
  93 <> 0 /\ 1 <= 93 < 1023 /\
  MQResistanceCalculation 93 power_on = (F32.of_int 100, power_on) /\
  F32.is_finite (fst (MQResistanceCalculation 93 power_on)) = true /\
  F32.ltb (F32.of_int 0) (fst (MQResistanceCalculation 93 power_on)) = true.
Proof.
  assert (H0 : 93 <> 0) by lia.
  assert (H1 : 1 <= 93 < 1023) by lia.
  destruct (C9_resistance_model 93 power_on) as (_ & E & P & _).
  split; [exact H0|]. split; [exact H1|]. split.
  - rewrite (E H0). reflexivity.
  - exact (P H1).
Defined.

(** ** Smoother *)

Lemma not_finite_nan_inf (x : float) :
  F32.isnan x || F32.isinf x = negb (F32.is_finite x).
Proof. now destruct x. Qed.

(** [MQRead] spelled out on the code [raw] its sampler returns. *)
Lemma MQRead_run (hw : Board) (mq_pin : Z) (Ro : float) (d : Device) :
  exists raw d1,
    readAnalogFilteredRaw hw mq_pin d = (raw, d1) /\ io_only d d1 /\
    ((raw = 0 \/ F32.is_finite (resistance raw) = false) /\
       fst (MQRead hw mq_pin Ro d) = F32.NAN /\
       io_only d (snd (MQRead hw mq_pin Ro d))
     \/
     (raw <> 0 /\ F32.is_finite (resistance raw) = true) /\
       baselines (snd (MQRead hw mq_pin Ro d)) = baselines d /\
       output (snd (MQRead hw mq_pin Ro d)) = output d1 /\
       adc_reads (snd (MQRead hw mq_pin Ro d)) = adc_reads d1 /\
       smoothed (snd (MQRead hw mq_pin Ro d)) =
         smoothed_after mq_pin (resistance raw) (smoothed d) /\
       fst (MQRead hw mq_pin Ro d) =
         match SmoothedRS mq_pin d with
         | Some s => ema s (resistance raw)
         | None => resistance raw
         end).
Proof.
  pose proof (readAnalogFilteredRaw_io hw mq_pin d) as Hio.
  unfold MQRead, bind.
  destruct (readAnalogFilteredRaw hw mq_pin d) as [raw d1]. simpl in Hio.
  exists raw, d1. split; [reflexivity|]. split; [exact Hio|].
  destruct (io_only_globals _ _ Hio) as [Hb Hs].
  destruct (Z.eq_dec raw 0) as [->|Hraw].
  - left. split; [now left|]. simpl. split; [reflexivity|].
    eapply io_only_trans; [exact Hio | now eexists _, _].
  - rewrite MQResistanceCalculation_nonzero by exact Hraw.
    rewrite not_finite_nan_inf.
    destruct (F32.is_finite (resistance raw)) eqn:Hf; simpl.
    + right. split; [now split|].
      destruct Hio as (n & o & ->). unfold SmoothedRS, smoothed_after, smoothed.
      destruct d; simpl.
      repeat match goal with
             | |- context [?p =? ?c] => destruct (p =? c)
             end; simpl; repeat split; reflexivity.
    + left. split; [now right|]. split; [reflexivity | exact Hio].
Qed.

Lemma SmoothedRS_after (p q : Z) (rs : float) (d d' : Device) :
  smoothed d' = smoothed_after p rs (smoothed d) ->
  SmoothedRS q d' =
    if q =? p then option_map (fun s => ema s rs) (SmoothedRS q d)
    else SmoothedRS q d.
Proof.
  unfold smoothed, smoothed_after, SmoothedRS.
  unfold MQ2_PIN, MQ7_PIN, MQ4_PIN, MQ9_PIN, MQ135_PIN, MQ8_PIN.
  destruct d, d'; simpl.
  repeat match goal with
         | |- context [p =? ?c] => destruct (Z.eqb_spec p c); [subst p|]
         end;
  intros H; inversion H; subst;
  repeat match goal with
         | |- context [q =? ?c] => destruct (Z.eqb_spec q c); [subst q|]
         end;
  repeat match goal with
         | |- context [?a =? ?b] => destruct (Z.eqb_spec a b)
         end;
  try reflexivity; try lia.
Qed.

Lemma above_zero_not_unset (x : float) :
  F32.ltb (F32.of_int 0) x = true -> F32.leb x (F32.of_int 0) = false.
Proof.
  change (F32.of_int 0) with (S754_zero false).
  destruct x as [s|s| |s m e]; try destruct s; cbv; congruence.
Qed.

Lemma ema_seed (S x : float) :
  F32.leb S (F32.of_int 0) = true -> ema S x = x.
Proof. unfold ema. now intros ->. Qed.

Lemma ema_blend (S x : float) :
  F32.leb S (F32.of_int 0) = false ->
  ema S x = F32.add (F32.mul (F32.lit 25 2) x) (F32.mul (F32.lit 75 2) S).
Proof. unfold ema. now intros ->. Qed.

(** One valid observation: the state of the pin goes through [ema], the
    others are not assigned. *)
Lemma MQRead_valid (hw : Board) (pin : Z) (Ro : float) (d : Device)
    (raw : Z) (d1 : Device) (s : float) :
  readAnalogFilteredRaw hw pin d = (raw, d1) -> 1 <= raw < 1023 ->
  SmoothedRS pin d = Some s ->
  fst (MQRead hw pin Ro d) = ema s (resistance raw) /\
  SmoothedRS pin (snd (MQRead hw pin Ro d)) = Some (ema s (resistance raw)) /\
  forall q, q <> pin ->
    SmoothedRS q (snd (MQRead hw pin Ro d)) = SmoothedRS q d.
Proof.
  intros E Hraw Hs.
  destruct (MQRead_run hw pin Ro d) as (raw' & d1' & E' & _ & H).
  rewrite E in E'. inversion E'; subst raw' d1'. clear E'.
  pose proof (resistance_positive raw Hraw) as P.
  apply andb_true_iff in P. destruct P as [Pf _].
  destruct H as [[[H|H] _]|[_ (_ & _ & _ & Hsm & Hv)]]; [lia | congruence |].
  rewrite Hs in Hv. split; [exact Hv|].
  split.
  - rewrite (SmoothedRS_after pin pin _ _ _ Hsm), Z.eqb_refl, Hs. reflexivity.
  - intros q Hq. rewrite (SmoothedRS_after pin q _ _ _ Hsm).
    destruct (Z.eqb_spec q pin); [contradiction | reflexivity].
Qed.

(** C8. The update of [MQRead] seeds an unset state ([S <= 0], as at
    power-on) with the observation and otherwise blends
    [0.25 * x + 0.75 * S]; seeding with 100 and feeding 200 gives 125; on
    every smoothed pin a first valid reading seeds the pin's state, the
    next valid reading blends into it, and no other pin's state is
    assigned. *)
Theorem C8_ema_smoother :
  (forall S x, F32.leb S (F32.of_int 0) = true -> ema S x = x) /\
  (forall S x, F32.leb S (F32.of_int 0) = false ->
     ema S x = F32.add (F32.mul (F32.lit 25 2) x) (F32.mul (F32.lit 75 2) S)) /\
  ema (SmoothedRS_MQ2 power_on) (F32.of_int 100) = F32.of_int 100 /\
  ema (F32.of_int 100) (F32.of_int 200) = F32.of_int 125 /\
  (forall hw pin Ro Ro' d s0 raw1 d1 raw2 d2,
     SmoothedRS pin d = Some s0 -> F32.leb s0 (F32.of_int 0) = true ->
     readAnalogFilteredRaw hw pin d = (raw1, d1) -> 1 <= raw1 < 1023 ->
     readAnalogFilteredRaw hw pin (snd (MQRead hw pin Ro d)) = (raw2, d2) ->
     1 <= raw2 < 1023 ->
     let da := snd (MQRead hw pin Ro d) in
     let db := snd (MQRead hw pin Ro' da) in
     SmoothedRS pin da = Some (resistance raw1) /\
     SmoothedRS pin db =
       Some (F32.add (F32.mul (F32.lit 25 2) (resistance raw2))
                     (F32.mul (F32.lit 75 2) (resistance raw1))) /\
     forall q, q <> pin ->
       SmoothedRS q da = SmoothedRS q d /\ SmoothedRS q db = SmoothedRS q d).
Proof.
  split; [exact ema_seed|]. split; [exact ema_blend|].
  split; [reflexivity|]. split; [vm_compute; reflexivity|].
  intros hw pin Ro Ro' d s0 raw1 d1 raw2 d2 Hs0 Hunset E1 H1 E2 H2 da db.
  destruct (MQRead_valid hw pin Ro d raw1 d1 s0 E1 H1 Hs0) as (_ & Sa & Oa).
  rewrite (ema_seed _ _ Hunset) in Sa.
  destruct (MQRead_valid hw pin Ro' da raw2 d2 _ E2 H2 Sa) as (_ & Sb & Ob).
  pose proof (resistance_positive raw1 H1) as P.
  apply andb_true_iff in P. destruct P as [_ P].
  rewrite (ema_blend _ _ (above_zero_not_unset _ P)) in Sb.
  split; [exact Sa|]. split; [exact Sb|].
  intros q Hq. split; [now apply Oa|].
  unfold db. rewrite (Ob q Hq). now apply Oa.
Qed.

Lemma C8_ema_smoother_witness :
  ema (F32.of_int 0) (F32.of_int 100) = F32.of_int 100 /\
  ema (F32.of_int 100) (F32.of_int 200) =
    F32.add (F32.mul (F32.lit 25 2) (F32.of_int 200))
            (F32.mul (F32.lit 75 2) (F32.of_int 100)) /\
  SmoothedRS MQ7_PIN
    (snd (MQRead (demo_board [93; 93; 93; 93; 93; 341; 341; 341; 341; 341])
            MQ7_PIN (F32.of_int 10)
            (snd (MQRead (demo_board [93; 93; 93; 93; 93; 341; 341; 341; 341; 341])
                    MQ7_PIN (F32.of_int 10) power_on)))) =
    Some (F32.of_int 80).
Proof.
  destruct C8_ema_smoother as (Hseed & Hblend & _ & _ & Hrun).
  split; [apply Hseed; reflexivity|].
  split; [apply Hblend; reflexivity|].
  pose (hw := demo_board [93; 93; 93; 93; 93; 341; 341; 341; 341; 341]).
  destruct (Hrun hw MQ7_PIN (F32.of_int 10) (F32.of_int 10) power_on
              F32.zero 93 (snd (readAnalogFilteredRaw hw MQ7_PIN power_on)) 341
              (snd (readAnalogFilteredRaw hw MQ7_PIN
                      (snd (MQRead hw MQ7_PIN (F32.of_int 10) power_on)))))
    as (_ & Sb & _).
  - reflexivity.
  - reflexivity.
  - vm_compute. reflexivity.
  - lia.
  - vm_compute. reflexivity.
  - lia.
  - fold hw. rewrite Sb. vm_compute. reflexivity.
Defined.

Lemma resistance_finite (raw : Z) :
  0 <= raw <= 1023 -> F32.is_finite (resistance raw) = negb (raw =? 0).
Proof.
  intros H. destruct (Z.eq_dec raw 0) as [->|H0]; [reflexivity|].
  destruct (Z.eq_dec raw 1023) as [->|H1]; [reflexivity|].
  pose proof (resistance_positive raw ltac:(lia)) as P.
  apply andb_true_iff in P. destruct P as [-> _].
  destruct (Z.eqb_spec raw 0); [contradiction | reflexivity].
Qed.

(** C3, refuted as stated: a saturated reading (code 1023) gives the
    resistance 0, which is not above zero, and [MQRead] blends it into the
    smoothed state, which drops from 100 to 75. *)
Lemma C3_saturated_reading_is_blended :
  let d1 := snd (MQRead saturating_board MQ2_PIN (F32.of_int 10) power_on) in
  SmoothedRS_MQ2 d1 = F32.of_int 100 /\
  fst (readAnalogFilteredRaw saturating_board MQ2_PIN d1) = 1023 /\
  fst (MQResistanceCalculation 1023 d1) = F32.of_int 0 /\
  F32.ltb (F32.of_int 0) (fst (MQResistanceCalculation 1023 d1)) = false /\
  SmoothedRS_MQ2 (snd (MQRead saturating_board MQ2_PIN (F32.of_int 10) d1)) =
    F32.of_int 75.
Proof. vm_compute. repeat split; reflexivity. Qed.

(** C3, amended. [MQRead] assigns a smoothed state only when the computed
    resistance is finite: when it is not (NaN, for the code 0) the call
    returns NaN and leaves all six states as they were; when it is finite
    the state of the pin read goes through [ema] and the other five are
    left alone.  On ADC codes the resistance is finite for every code but
    0, the saturated code 1023 (resistance 0) included. *)
Theorem C3_smoothed_state_update (hw : Board) (mq_pin : Z) (Ro : float)
    (d : Device) (raw : Z) (d1 : Device) :
  readAnalogFilteredRaw hw mq_pin d = (raw, d1) ->
  (F32.is_finite (fst (MQResistanceCalculation raw d1)) = false ->
     fst (MQRead hw mq_pin Ro d) = F32.NAN /\
     smoothed (snd (MQRead hw mq_pin Ro d)) = smoothed d) /\
  (F32.is_finite (fst (MQResistanceCalculation raw d1)) = true ->
     smoothed (snd (MQRead hw mq_pin Ro d)) =
       smoothed_after mq_pin (fst (MQResistanceCalculation raw d1)) (smoothed d) /\
     forall q, q <> mq_pin ->
       SmoothedRS q (snd (MQRead hw mq_pin Ro d)) = SmoothedRS q d) /\
  (0 <= raw <= 1023 ->
     F32.is_finite (fst (MQResistanceCalculation raw d1)) = negb (raw =? 0)).
Proof.
  intros E.
  destruct (MQRead_run hw mq_pin Ro d) as (raw' & d1' & E' & _ & H).
  rewrite E in E'. inversion E'; subst raw' d1'. clear E'.
  assert (R : fst (MQResistanceCalculation raw d1) =
              if raw =? 0 then F32.NAN else resistance raw).
  { unfold MQResistanceCalculation. now destruct (raw =? 0). }
  rewrite R. split; [|split].
  - intros Hnf.
    destruct H as [(_ & Hv & Hio)|[[Hraw Hf] _]].
    + split; [exact Hv | apply io_only_globals, Hio].
    + destruct (Z.eqb_spec raw 0); [contradiction | congruence].
  - intros Hf.
    destruct H as [([Hraw|Hnf] & _)|[[Hraw _] (_ & _ & _ & Hsm & _)]].
    + subst raw. discriminate Hf.
    + destruct (Z.eqb_spec raw 0); [discriminate Hf | congruence].
    + destruct (Z.eqb_spec raw 0); [contradiction|].
      split; [exact Hsm|]. intros q Hq.
      rewrite (SmoothedRS_after mq_pin q _ _ _ Hsm).
      destruct (Z.eqb_spec q mq_pin); [contradiction | reflexivity].
  - intros Hr. destruct (Z.eqb_spec raw 0); [reflexivity|].
    rewrite resistance_finite by exact Hr.
    destruct (Z.eqb_spec raw 0); [contradiction | reflexivity].
Qed.

Lemma C3_smoothed_state_update_witness :
  smoothed (snd (MQRead (demo_board (repeat 0 30)) MQ4_PIN (F32.of_int 10)
                   (snd (MQRead saturating_board MQ4_PIN (F32.of_int 10) power_on)))) =
  smoothed (snd (MQRead saturating_board MQ4_PIN (F32.of_int 10) power_on)).
Proof.
  pose (d := snd (MQRead saturating_board MQ4_PIN (F32.of_int 10) power_on)).
  pose (hw := demo_board (repeat 0 30)).
  destruct (C3_smoothed_state_update hw MQ4_PIN (F32.of_int 10) d 0
              (snd (readAnalogFilteredRaw hw MQ4_PIN d)))
    as (Hnf & _ & _).
  - vm_compute. reflexivity.
  - destruct Hnf as [_ Hs]; [reflexivity | exact Hs].
Defined.

(** ** Composite index *)

(** C4. [calculateSDAQI] is the linear combination of its eight raw
    arguments with the weights 0.05, 0.10, 0.10, 0.10, 0.05, 0.50, 0.10,
    0.05; nothing is normalised or clamped (an estimate of 2000 or of -10
    is weighted as it is); for all-zero estimates the index is 0, its
    label is the first rung of the ladder, and that is what the cycle
    emits. *)
Theorem C4_composite_index :
  (forall co co_mq7 co_mq9 ch4 h2 co2 nox air,
     calculateSDAQI co co_mq7 co_mq9 ch4 h2 co2 nox air =
     linear_combination [co; co_mq7; co_mq9; ch4; h2; co2; nox; air]
                        SDAQI_weights) /\
  (let z := F32.zero in
   calculateSDAQI z z z z z (F32.of_int 2000) z z = F32.of_int 1000 /\
   calculateSDAQI z z z z z (F32.of_int (-10)) z z = F32.of_int (-5) /\
   calculateSDAQI z z z z z z z z = F32.zero) /\
  (forall x, F32.leb x (F32.of_int 50) = true -> SD_AQI_level x = "Excellent"%string) /\
  SD_AQI_level F32.zero = "Excellent"%string /\
  (forall humidity temperature d,
     F32.isnan humidity = false -> F32.isnan temperature = false ->
     printed (report zero_estimates humidity temperature) d =
     let json := {| j_gases := zero_estimates; j_Temperature := temperature;
                    j_Humidity := humidity; j_SD_AQI := F32.zero;
                    j_SD_AQI_level := "Excellent" |} in
     [Println Serial (Json json); Println XBee (Json json)]).
Proof.
  split.
  { intros. unfold calculateSDAQI, linear_combination, SDAQI_weights.
    cbn [combine fold_left fst snd].
    replace (F32.lit 10 2) with (F32.lit 1 1) by (vm_compute; reflexivity).
    replace (F32.lit 50 2) with (F32.lit 5 1) by (vm_compute; reflexivity).
    reflexivity. }
  split; [vm_compute; auto|].
  split; [intros x H; unfold SD_AQI_level; now rewrite H|].
  split; [vm_compute; reflexivity|].
  intros humidity temperature d Hh Ht.
  destruct humidity; try discriminate Hh;
    destruct temperature; try discriminate Ht; vm_compute; reflexivity.
Qed.

Lemma C4_composite_index_witness :
  printed (report zero_estimates (F32.of_int 40) (F32.of_int 21)) power_on =
  let json := {| j_gases := zero_estimates; j_Temperature := F32.of_int 21;
                 j_Humidity := F32.of_int 40; j_SD_AQI := F32.zero;
                 j_SD_AQI_level := "Excellent" |} in
  [Println Serial (Json json); Println XBee (Json json)].
Proof.
  apply (proj2 (proj2 (proj2 (proj2 C4_composite_index)))); reflexivity.
Defined.

(** ** Alerts *)

Lemma evaluateAirQuality_printed (co2 co lpg nox benzene humidity : float)
    (d : Device) :
  printed (evaluateAirQuality co2 co lpg nox benzene humidity) d =
  broadcast (alerts co2 co lpg nox benzene humidity).
Proof.
  unfold printed, evaluateAirQuality, alerts, breach, bind, when.
  destruct (F32.gtb co2 _), (F32.gtb co _), (F32.gtb lpg _), (F32.gtb nox _),
    (F32.gtb benzene _), (F32.gtb humidity _); reflexivity.
Qed.

Lemma breach_in (value ceiling : float) (msg m : string) :
  In m (breach value ceiling msg) <-> m = msg /\ F32.ltb ceiling value = true.
Proof.
  unfold breach, F32.gtb, F32.ltb. destruct (SFltb ceiling value); simpl.
  - split; [intros [<-|[]]; auto | intros [-> _]; auto].
  - split; [intros [] | intros [_ H]; discriminate H].
Qed.

Lemma broadcast_in (p : port) (m : string) (msgs : list string) :
  In (Println p (Txt m)) (broadcast msgs) <-> In m msgs.
Proof.
  unfold broadcast. rewrite in_flat_map. split.
  - intros (x & Hx & [E|[E|[]]]); inversion E; now subst.
  - intros H. exists m. split; [exact H|]. destruct p; simpl; auto.
Qed.

Lemma alerts_in (co2 co lpg nox benzene humidity : float) (m : string) :
  In m (alerts co2 co lpg nox benzene humidity) <->
  (m = ALERT_CO2 /\ F32.ltb MAX_CO2_THRESHOLD co2 = true) \/
  (m = ALERT_CO /\ F32.ltb MAX_CO_THRESHOLD co = true) \/
  (m = ALERT_LPG /\ F32.ltb MAX_HYDROCARBONS_THRESHOLD lpg = true) \/
  (m = ALERT_NOX /\ F32.ltb MAX_NOX_THRESHOLD nox = true) \/
  (m = ALERT_BENZENE /\ F32.ltb MAX_HYDROCARBONS_THRESHOLD benzene = true) \/
  (m = ALERT_HUMIDITY /\ F32.ltb MAX_MOISTURE_THRESHOLD humidity = true).
Proof. unfold alerts. rewrite !in_app_iff, !breach_in. reflexivity. Qed.

Ltac alert_cases :=
  match goal with
  | H : _ \/ _ |- _ => destruct H as [H|H]; alert_cases
  | H : _ = _ /\ _ |- _ => destruct H as [? ?]; try discriminate; try assumption
  end.

(** C5. [evaluateAirQuality] takes the gas estimates and the humidity, not
    the composite index; it prints, in order and on both ports, one alert
    for each value above its own ceiling, and the six alerts are distinct
    lines.  A CO2 estimate of 600 with everything else at 0 prints the CO2
    alert alone; the index of those estimates is 300.  A CO estimate of 16
    prints the CO alert although the index, 0.8, is on the first rung. *)
Theorem C5_alerts_independent_of_index
    (co2 co lpg nox benzene humidity : float) (d : Device) :
  printed (evaluateAirQuality co2 co lpg nox benzene humidity) d =
    broadcast (breach co2 MAX_CO2_THRESHOLD ALERT_CO2 ++
               breach co MAX_CO_THRESHOLD ALERT_CO ++
               breach lpg MAX_HYDROCARBONS_THRESHOLD ALERT_LPG ++
               breach nox MAX_NOX_THRESHOLD ALERT_NOX ++
               breach benzene MAX_HYDROCARBONS_THRESHOLD ALERT_BENZENE ++
               breach humidity MAX_MOISTURE_THRESHOLD ALERT_HUMIDITY) /\
  NoDup [ALERT_CO2; ALERT_CO; ALERT_LPG; ALERT_NOX; ALERT_BENZENE;
         ALERT_HUMIDITY] /\
  (let z := F32.zero in
   printed (evaluateAirQuality (F32.of_int 600) z z z z z) d =
     [Println Serial (Txt ALERT_CO2); Println XBee (Txt ALERT_CO2)] /\
   calculateSDAQI z z z z z (F32.of_int 600) z z = F32.of_int 300 /\
   printed (evaluateAirQuality z (F32.of_int 16) z z z z) d =
     [Println Serial (Txt ALERT_CO); Println XBee (Txt ALERT_CO)] /\
   SD_AQI_level (calculateSDAQI (F32.of_int 16) z z z z z z z) =
     "Excellent"%string).
Proof.
  split; [apply evaluateAirQuality_printed|]. split.
  - repeat (constructor; [simpl; intuition discriminate|]). constructor.
  - cbv zeta. rewrite !evaluateAirQuality_printed. vm_compute. auto.
Qed.

(** C10. Every comparison of [evaluateAirQuality] is strict: an alert is
    printed exactly when its value is above its ceiling (500, 15, 1, 2, 1
    and 60).  Values equal to their ceilings print nothing; the float next
    above a ceiling prints the alert. *)
Theorem C10_strict_thresholds
    (co2 co lpg nox benzene humidity : float) (d : Device) :
  let out := printed (evaluateAirQuality co2 co lpg nox benzene humidity) d in
  (In (Println Serial (Txt ALERT_CO2)) out <->
     F32.ltb (F32.of_int 500) co2 = true) /\
  (In (Println Serial (Txt ALERT_CO)) out <->
     F32.ltb (F32.of_int 15) co = true) /\
  (In (Println Serial (Txt ALERT_LPG)) out <->
     F32.ltb (F32.of_int 1) lpg = true) /\
  (In (Println Serial (Txt ALERT_NOX)) out <->
     F32.ltb (F32.of_int 2) nox = true) /\
  (In (Println Serial (Txt ALERT_BENZENE)) out <->
     F32.ltb (F32.of_int 1) benzene = true) /\
  (In (Println Serial (Txt ALERT_HUMIDITY)) out <->
     F32.ltb (F32.of_int 60) humidity = true) /\
  printed (evaluateAirQuality (F32.of_int 500) (F32.of_int 15) (F32.of_int 1)
             (F32.of_int 2) (F32.of_int 1) (F32.of_int 60)) d = [] /\
  printed (evaluateAirQuality (next_up (F32.of_int 500)) (F32.of_int 15)
             (F32.of_int 1) (F32.of_int 2) (F32.of_int 1) (F32.of_int 60)) d =
    [Println Serial (Txt ALERT_CO2); Println XBee (Txt ALERT_CO2)] /\
  printed (evaluateAirQuality (F32.of_int 500) (F32.of_int 15) (F32.of_int 1)
             (F32.of_int 2) (F32.of_int 1) (next_up (F32.of_int 60))) d =
    [Println Serial (Txt ALERT_HUMIDITY); Println XBee (Txt ALERT_HUMIDITY)].
Proof.
  cbv zeta. rewrite !evaluateAirQuality_printed, !broadcast_in, !alerts_in.
  repeat split; try (intros H; alert_cases); try (vm_compute; reflexivity).
  - intros H; left; now split.
  - intros H; right; left; now split.
  - intros H; right; right; left; now split.
  - intros H; right; right; right; left; now split.
  - intros H; right; right; right; right; left; now split.
  - intros H; right; right; right; right; right; now split.
Qed.

(** ** Two-point fit *)

Lemma add_zero_same (t z : float) :
  (z = S754_zero false \/ z = S754_zero true) -> same_number (F32.add t z) t.
Proof.
  intros [-> | ->]; destruct t as [[|]|[|]| |s m e]; cbv; auto.
Qed.

Lemma zero_div_nonzero (p : float) :
  nonzero_number p = true ->
  F32.div (F32.of_int 0) p = S754_zero false \/
  F32.div (F32.of_int 0) p = S754_zero true.
Proof.
  destruct p as [s|[|]| |[|] m e]; try discriminate; intros _; cbv; auto.
Qed.

(** C6. With [x = log(ratio)] and [y = log10(ppm)], [computeTwoPointCurve]
    rejects (prints the error and returns the all-NaN curve) exactly when
    [fabs(x2 - x1) < 1e-6]; otherwise it returns [p2 = 1/m] with
    [m = (y2 - y1)/(x2 - x1)], [p1 = 0] and [p0 = y1 - x1/p2 + p1/p2],
    which is the number [y1 - x1/p2] whenever [p2] is a non-zero number.
    For ppm 10 and 100 at ratios whose logarithms are 1 and 2 the curve is
    (0, 0, 1), and a ratio whose logarithm is 1.5 is then estimated at
    [pow(10, 1.5)]. *)
Theorem C6_two_point_fit (lm : Libm) (ppm1 rsro1 ppm2 rsro2 : float) (d : Device) :
  let x1 := log lm rsro1 in
  let x2 := log lm rsro2 in
  let y1 := log10 lm ppm1 in
  let y2 := log10 lm ppm2 in
  let m := F32.div (F32.sub y2 y1) (F32.sub x2 x1) in
  let p2 := F32.div (F32.of_int 1) m in
  (F32.ltb (F32.fabs (F32.sub x2 x1)) (F32.lit 1 6) = true ->
     computeTwoPointCurve lm ppm1 rsro1 ppm2 rsro2 d =
       ((F32.NAN, F32.NAN, F32.NAN),
        with_io (adc_reads d)
          (Println Serial (Txt "Error: Rs/Ro points identical (can't fit curve)")
           :: output d) d)) /\
  (F32.ltb (F32.fabs (F32.sub x2 x1)) (F32.lit 1 6) = false ->
     exists p0,
       computeTwoPointCurve lm ppm1 rsro1 ppm2 rsro2 d =
         ((p0, F32.of_int 0, p2), d) /\
       p0 = F32.add (F32.sub y1 (F32.div x1 p2)) (F32.div (F32.of_int 0) p2) /\
       (nonzero_number p2 = true ->
        same_number p0 (F32.sub y1 (F32.div x1 p2)))) /\
  (ppm1 = F32.of_int 10 -> ppm2 = F32.of_int 100 ->
   x1 = F32.of_int 1 -> x2 = F32.of_int 2 ->
   y1 = F32.of_int 1 -> y2 = F32.of_int 2 ->
     computeTwoPointCurve lm ppm1 rsro1 ppm2 rsro2 d =
       ((F32.of_int 0, F32.of_int 0, F32.of_int 1), d) /\
     forall ratio, log lm ratio = F32.lit 15 1 ->
       MQGetGasPercentage lm ratio (F32.of_int 0, F32.of_int 0, F32.of_int 1) =
       pow lm (F32.of_int 10) (F32.lit 15 1)).
Proof.
  cbv zeta. split; [|split].
  - intros H. unfold computeTwoPointCurve. rewrite H. reflexivity.
  - intros H. eexists. unfold computeTwoPointCurve. rewrite H.
    split; [reflexivity|]. split; [reflexivity|].
    intros Hp. apply add_zero_same, zero_div_nonzero, Hp.
  - intros _ _ X1 X2 Y1 Y2. split.
    + unfold computeTwoPointCurve. rewrite X1, X2, Y1, Y2. reflexivity.
    + intros ratio Hr. unfold MQGetGasPercentage. rewrite Hr. reflexivity.
Qed.

Lemma C6_two_point_fit_witness :
  computeTwoPointCurve reference_libm
    (F32.of_int 10) (F32.lit 271828198 8) (F32.of_int 100) (F32.lit 738905573 8)
    power_on = ((F32.of_int 0, F32.of_int 0, F32.of_int 1), power_on) /\
  MQGetGasPercentage reference_libm (F32.lit 448168898 8)
    (F32.of_int 0, F32.of_int 0, F32.of_int 1) = F32.lit 31622776 6 /\
  computeTwoPointCurve reference_libm
    (F32.of_int 10) (F32.of_int 2) (F32.of_int 100) (F32.of_int 2) power_on =
    ((F32.NAN, F32.NAN, F32.NAN),
     with_io 0
       [Println Serial (Txt "Error: Rs/Ro points identical (can't fit curve)")]
       power_on) /\
  computeTwoPointCurve reference_libm
    (F32.of_int 10) (F32.of_int 2) (F32.of_int 100) (F32.of_int 10) power_on =
    ((F32.lit 569323421 9, F32.of_int 0, F32.lit 160943794 8), power_on).
Proof.
  pose proof (C6_two_point_fit reference_libm (F32.of_int 10) (F32.lit 271828198 8)
                (F32.of_int 100) (F32.lit 738905573 8) power_on) as (_ & _ & Hex).
  destruct Hex as [Hc He]; try reflexivity.
  split; [exact Hc|]. split; [rewrite He; reflexivity|]. split.
  - apply (C6_two_point_fit reference_libm (F32.of_int 10) (F32.of_int 2)
             (F32.of_int 100) (F32.of_int 2) power_on). reflexivity.
  - destruct (proj1 (proj2 (C6_two_point_fit reference_libm (F32.of_int 10)
                (F32.of_int 2) (F32.of_int 100) (F32.of_int 10) power_on)))
      as (p0 & Hc' & -> & _); [reflexivity|].
    rewrite Hc'. vm_compute. reflexivity.
Defined.

(** ** Start-up *)

(** When no sample is valid while [setup] runs, every [Ro] falls back to
    10: the device at the first call of [loop] is the initial one, with
    [BOOT_READS] ADC reads made and the start-up lines printed. *)
Lemma booted_cold_start (later : Board) :
  exists o, booted (cold_start later) = with_io BOOT_READS o power_on.
Proof. eexists. vm_compute. reflexivity. Qed.

(** ** Interactive calibration *)

Lemma get_io {A : Type} (f : Device -> A) (d : Device) :
  io_only d (snd (get f d)).
Proof. apply io_only_refl. Qed.

Lemma ret_io {A : Type} (a : A) (d : Device) : io_only d (snd (ret a d)).
Proof. apply io_only_refl. Qed.

Lemma println_io (p : port) (s : string) (d : Device) :
  io_only d (snd (println p s d)).
Proof. apply emit_io. Qed.

Ltac io_step :=
  first [ apply io_only_refl | apply ret_io | apply emit_io | apply println_io | apply get_io
        | apply readAnalogFilteredRaw_io | apply MQResistanceCalculation_io
        | apply bind_io; [|intros] ].

Lemma measure_loop_io (hw : Board) (pin : Z) (n : nat) (c : Z) (s : float)
    (d : Device) :
  io_only d (snd (measure_loop hw pin n c s d)).
Proof.
  revert c s d; induction n as [|n IH]; intros c s d; simpl.
  - io_step.
  - do 2 (apply bind_io; [io_step | intros]).
    destruct (_ || _); apply IH.
Qed.

Lemma measureRsOverRo_io (hw : Board) (pin : Z) (Ro : float) (n : nat)
    (d : Device) :
  io_only d (snd (measureRsOverRo hw pin Ro n d)).
Proof.
  apply bind_io; [apply measure_loop_io|]. intros [c s] d1.
  destruct (c =? 0); io_step.
Qed.

Lemma parse_ppm_io (n : nat) (toks : list token) (d : Device) :
  io_only d (snd (parse_ppm n toks d)).
Proof.
  revert toks d; induction n as [|n IH]; intros toks d; simpl.
  - io_step.
  - destruct toks as [|tok rest]; [repeat io_step|].
    destruct (F32.leb _ _); [repeat io_step|].
    apply bind_io; [apply IH | intros; io_step].
Qed.

Lemma collect_points_io (hw : Board) (pin : Z) (Ro : float)
    (ppmList : list float) (d : Device) :
  io_only d (snd (collect_points hw pin Ro ppmList d)).
Proof.
  revert d; induction ppmList as [|ppm rest IH]; intros d; simpl.
  - io_step.
  - do 3 (apply bind_io; [io_step | intros]).
    apply bind_io; [apply measureRsOverRo_io | intros].
    do 4 (apply bind_io; [io_step | intros]).
    destruct (_ || _); [repeat io_step|].
    apply bind_io; [apply IH | intros; io_step].
Qed.

Lemma handleSerialCalibration_io (lm : Libm) (hw : Board) (input : serial_input)
    (d : Device) :
  io_only d (snd (handleSerialCalibration lm hw input d)).
Proof.
  unfold handleSerialCalibration.
  destruct input as [|cmd line]; [io_step|].
  destruct (negb (is_C cmd)); [io_step|].
  do 5 (apply bind_io; [io_step | intros]).
  destruct line as [|tok_sensor [|tok_N toks]]; [repeat io_step ..|].
  destruct (_ || _); [repeat io_step|].
  apply bind_io; [apply parse_ppm_io | intros [ppmList|] ?]; [|io_step].
  destruct (sensor_pin _) as [[pin Ro_of]|]; [|repeat io_step].
  apply bind_io; [io_step | intros].
  apply bind_io; [apply collect_points_io | intros [rsroList|] ?]; [|io_step].
  destruct (computeMultiPointCurve _ _ _ _) as [[[p0 p1] p2]|]; repeat io_step.
Qed.

(** C2, refuted as stated: after a start-up that fell back to [Ro = 10],
    a session on the MQ-2 sensor completes with a successful fit,
    (1.5, 1.4978662, 1.6094383); the device is left as it was apart from
    the 100 ADC reads and the printed lines, and the next measurement still
    estimates LPG, CO and smoke with the PROGMEM curves: at ratio 2 LPG is
    1.83, where the fitted curve would give 10.0. *)
Lemma C2_fitted_curve_is_not_installed :
  let d0 := booted calibration_board in
  let run :=
    handleSerialCalibration reference_libm calibration_board
      two_point_session d0 in
  let fitted := (F32.lit 15 1, F32.lit 149786615 8, F32.lit 16094383 7) in
  let next := fst (measure reference_libm calibration_board (snd run)) in
  baselines d0 = baselines power_on /\
  fst run = CurveAccepted fitted /\
  snd run = with_io (adc_reads d0 + 100) (output (snd run)) d0 /\
  LPG next = MQGetGasPercentage reference_libm (F32.of_int 2) MQ2Curve /\
  CO next = MQGetGasPercentage reference_libm (F32.of_int 2) COCurve /\
  Smoke next = MQGetGasPercentage reference_libm (F32.of_int 2) SmokeCurve /\
  LPG next = F32.lit 183242917 8 /\
  CO next = F32.lit 381047287 7 /\
  Smoke next = F32.lit 210885391 7 /\
  MQGetGasPercentage reference_libm (F32.of_int 2) fitted = F32.lit 100000029 7.
Proof.
  unfold calibration_board.
  destruct (booted_cold_start
              {| adc_code := fun _ k => nth k (repeat 341 50 ++ repeat 93 50) 341 |})
    as [o ->].
  vm_compute. repeat split; reflexivity.
Qed.

Lemma estimate_run (lm : Libm) (hw : Board) (pin : Z) (Ro_of : Device -> float)
    (progCurve : curve) (d : Device) :
  estimate lm hw pin Ro_of progCurve d =
  (MQGetGasPercentage lm
     (F32.div (fst (MQRead hw pin (Ro_of d) d)) (Ro_of d)) progCurve,
   snd (MQRead hw pin (Ro_of d) d)).
Proof.
  unfold estimate, bind, get, ret, readCurveFromProgmem.
  now destruct (MQRead hw pin (Ro_of d) d).
Qed.

(** C2, amended. Whatever its exit (none, aborted, fit rejected, curve
    accepted), [handleSerialCalibration] assigns no global: the device
    differs only by the ADC reads made and the lines printed, so every
    [Ro] and every smoothed state is what it was; the fitted coefficients
    are printed only, and each estimate of the following cycle applies the
    PROGMEM curve of its line to the unchanged baseline. *)
Theorem C2_calibration_assigns_nothing (lm : Libm) (hw : Board)
    (input : serial_input) (d : Device) :
  let d' := snd (handleSerialCalibration lm hw input d) in
  d' = with_io (adc_reads d') (output d') d /\
  baselines d' = baselines d /\
  smoothed d' = smoothed d /\
  (forall pin Ro_of progCurve,
     In Ro_of [Ro_MQ2; Ro_MQ7; Ro_MQ4; Ro_MQ9; Ro_MQ135; Ro_MQ8] ->
     fst (estimate lm hw pin Ro_of progCurve d') =
       MQGetGasPercentage lm
         (F32.div (fst (MQRead hw pin (Ro_of d) d')) (Ro_of d)) progCurve).
Proof.
  cbv zeta.
  destruct (handleSerialCalibration_io lm hw input d) as (n & o & E).
  rewrite E. repeat split.
  intros pin Ro_of progCurve HRo. rewrite estimate_run. simpl.
  assert (R : Ro_of (with_io n o d) = Ro_of d).
  { simpl in HRo. repeat (destruct HRo as [<-|HRo]; [reflexivity|]). contradiction. }
  now rewrite R.
Qed.

Lemma C2_calibration_assigns_nothing_witness :
  In Ro_MQ2 [Ro_MQ2; Ro_MQ7; Ro_MQ4; Ro_MQ9; Ro_MQ135; Ro_MQ8] /\
  fst (estimate reference_libm calibration_board MQ2_PIN Ro_MQ2 MQ2Curve
         (snd (handleSerialCalibration reference_libm calibration_board
                 two_point_session (booted calibration_board)))) =
  F32.lit 183242917 8.
Proof.
  assert (H : In Ro_MQ2 [Ro_MQ2; Ro_MQ7; Ro_MQ4; Ro_MQ9; Ro_MQ135; Ro_MQ8])
    by (now left).
  split; [exact H|].
  destruct (C2_calibration_assigns_nothing reference_libm calibration_board
              two_point_session (booted calibration_board)) as (_ & _ & _ & He).
  rewrite (He MQ2_PIN Ro_MQ2 MQ2Curve H). unfold calibration_board.
  destruct (booted_cold_start
              {| adc_code := fun _ k => nth k (repeat 341 50 ++ repeat 93 50) 341 |})
    as [o ->].
  vm_compute. reflexivity.
Defined.

(** ** Main loop *)

Lemma all_valid_nan (l : list float) (x : float) :
  In x l -> F32.isnan x = true -> all_valid l = false.
Proof.
  intros Hx Hn.
  destruct (all_valid l) eqn:E; [|reflexivity].
  unfold all_valid in E.
  rewrite forallb_forall in E. specialize (E x Hx). now rewrite Hn in E.
Qed.

Lemma report_run (g : Estimates) (humidity temperature : float) (d : Device) :
  output (snd (report g humidity temperature d)) =
    (if all_valid (tested g humidity temperature)
     then [Println XBee (Json (payload_of g humidity temperature));
           Println Serial (Json (payload_of g humidity temperature))]
     else [Println Serial (Txt ERROR_LINE)]) ++ output d /\
  io_only d (snd (report g humidity temperature d)).
Proof.
  unfold report. destruct (all_valid _).
  - split; [reflexivity | now eexists _, _].
  - split; [reflexivity | now eexists _, _].
Qed.

Lemma loop_run (lm : Libm) (hw : Board) (input : serial_input)
    (humidity temperature : float) (d : Device) :
  loop lm hw input humidity temperature d =
  report (fst (measure lm hw (snd (handleSerialCalibration lm hw input d))))
         humidity temperature
         (snd (measure lm hw (snd (handleSerialCalibration lm hw input d)))).
Proof.
  unfold loop, bind.
  destruct (handleSerialCalibration lm hw input d) as [x dc]. simpl.
  now destruct (measure lm hw dc).
Qed.

(** *** Baselines are never assigned *)

Lemma MQRead_baselines (hw : Board) (pin : Z) (Ro : float) (d : Device) :
  baselines (snd (MQRead hw pin Ro d)) = baselines d.
Proof.
  destruct (MQRead_run hw pin Ro d) as (raw & d1 & _ & _ & [(_ & _ & H)|(_ & H & _)]).
  - apply io_only_globals, H.
  - exact H.
Qed.

Lemma estimate_baselines (lm : Libm) (hw : Board) (pin : Z)
    (Ro_of : Device -> float) (c : curve) (d : Device) :
  baselines (snd (estimate lm hw pin Ro_of c d)) = baselines d.
Proof. rewrite estimate_run. apply MQRead_baselines. Qed.

Lemma measure_baselines (lm : Libm) (hw : Board) (d : Device) :
  baselines (snd (measure lm hw d)) = baselines d.
Proof.
  unfold measure, bind.
  repeat match goal with
         | |- context [estimate lm hw ?p ?r ?c ?x] =>
             let H := fresh "B" in
             pose proof (estimate_baselines lm hw p r c x) as H;
             destruct (estimate lm hw p r c x) as [? ?]; simpl in H
         end.
  simpl. congruence.
Qed.

(** *** A dead input *)

Lemma retry_loop_dead (hw : Board) (pin : Z) (n : nat) (d : Device) :
  dead_pin hw pin -> fst (retry_loop hw pin n 0 d) = 0.
Proof.
  intros H. revert d; induction n as [|n IH]; intros d; simpl; [reflexivity|].
  unfold bind, analogRead. rewrite H. simpl. apply IH.
Qed.

Lemma read_samples_dead (hw : Board) (pin : Z) (n : nat) (d : Device) :
  dead_pin hw pin -> fst (read_samples hw pin n d) = repeat 0 n.
Proof.
  intros H. revert d; induction n as [|n IH]; intros d; [reflexivity|].
  rewrite read_samples_S.
  pose proof (retry_loop_dead hw pin ANALOG_READ_RETRIES d H) as E.
  fold (analogReadWithRetries hw pin d) in E.
  destruct (analogReadWithRetries hw pin d) as [s d1]. simpl in E. subst s.
  specialize (IH d1). destruct (read_samples hw pin n d1) as [rest d2].
  simpl in *. now rewrite IH.
Qed.

Lemma readAnalogFilteredRaw_dead (hw : Board) (pin : Z) (d : Device) :
  dead_pin hw pin -> fst (readAnalogFilteredRaw hw pin d) = 0.
Proof.
  intros H. unfold readAnalogFilteredRaw, readAnalogFilteredRaw_with, bind.
  pose proof (read_samples_dead hw pin READ_SAMPLE_TIMES d H) as E.
  destruct (read_samples hw pin READ_SAMPLE_TIMES d) as [samples d1].
  simpl in E. subst samples. reflexivity.
Qed.

Lemma estimate_dead (lm : Libm) (hw : Board) (pin : Z) (Ro_of : Device -> float)
    (c : curve) (d : Device) :
  nan_propagating lm -> dead_pin hw pin ->
  fst (estimate lm hw pin Ro_of c d) = F32.NAN.
Proof.
  intros [Hlog Hpow] Hdead. rewrite estimate_run. simpl.
  destruct (MQRead_run hw pin (Ro_of d) d) as (raw & d1 & E & _ & H).
  pose proof (readAnalogFilteredRaw_dead hw pin d Hdead) as R.
  rewrite E in R. simpl in R. subst raw.
  destruct H as [(_ & -> & _)|[[H _] _]]; [|contradiction].
  destruct c as [[p0 p1] p2]. unfold MQGetGasPercentage.
  change (F32.div F32.NAN (Ro_of d)) with F32.NAN. rewrite Hlog.
  exact Hpow.
Qed.

Lemma measure_dead (lm : Libm) (hw : Board) (pin : Z) (d : Device)
    (humidity temperature : float) :
  nan_propagating lm -> In pin mq_pins -> dead_pin hw pin ->
  all_valid (tested (fst (measure lm hw d)) humidity temperature) = false.
Proof.
  intros Hlm Hpin Hdead.
  apply all_valid_nan with (x := F32.NAN); [|reflexivity].
  unfold measure, bind.
  repeat match goal with
         | |- context [estimate lm hw ?p ?r ?c ?x] =>
             let H := fresh "E" in
             pose proof (fun D => estimate_dead lm hw p r c x Hlm D) as H;
             destruct (estimate lm hw p r c x) as [? ?]; simpl in H
         end.
  simpl in Hpin. unfold tested. simpl.
  repeat (destruct Hpin as [<-|Hpin];
          [repeat match goal with
                  | H : dead_pin hw ?p -> _ = F32.NAN |- _ =>
                      first [rewrite (H Hdead) | clear H]
                  end; tauto|]).
  contradiction.
Qed.

(** C1, refuted as stated: after start-up, with the MQ-7 input stuck at 0
    and every other input healthy, the twelve other estimates of the cycle
    are valid numbers, yet the cycle prints the two error lines and no
    snapshot; on the healthy board the same cycle prints the snapshot on
    both ports. *)
Lemma C1_one_failed_channel_drops_the_snapshot :
  let h := F32.of_int 40 in
  let t := F32.of_int 21 in
  let g := fst (measure reference_libm faulty_board (booted faulty_board)) in
  let g0 := fst (measure reference_libm healthy_board (booted healthy_board)) in
  F32.isnan (CO_MQ7 g) = true /\
  all_valid [LPG g; CO g; Smoke g; CH4 g; CO_MQ9 g; CO2 g; NH3 g; NOx g;
             Alcohol g; Benzene g; H2 g; Air g] = true /\
  printed (loop reference_libm faulty_board NoData h t) (booted faulty_board) =
    [Println Serial (Txt "Error: Invalid ADC value (0)");
     Println Serial (Txt ERROR_LINE)] /\
  printed (loop reference_libm healthy_board NoData h t) (booted healthy_board) =
    [Println Serial (Json (payload_of g0 h t));
     Println XBee (Json (payload_of g0 h t))] /\
  j_SD_AQI_level (payload_of g0 h t) = "Moderate"%string.
Proof.
  unfold faulty_board, healthy_board.
  destruct (booted_cold_start
              (steady_board (fun pin => if pin =? MQ7_PIN then 0 else 341)))
    as [o ->].
  destruct (booted_cold_start (steady_board (fun _ => 341))) as [o' ->].
  vm_compute. repeat split; reflexivity.
Qed.

(** C1, amended. A cycle prints the snapshot (estimates, environment,
    index and label, on both ports) exactly when none of its fifteen
    values is NaN; one NaN among them, for instance the estimate of a
    channel whose input reads 0 throughout, makes the cycle print the
    error line and no snapshot.  In both cases [loop] returns, the report
    assigns no smoothed state, and no baseline is assigned in the cycle. *)
Theorem C1_cycle_guard (lm : Libm) (hw : Board) (input : serial_input)
    (humidity temperature : float) (d : Device) :
  let dc := snd (handleSerialCalibration lm hw input d) in
  let g := fst (measure lm hw dc) in
  let dm := snd (measure lm hw dc) in
  let d' := snd (loop lm hw input humidity temperature d) in
  (all_valid (tested g humidity temperature) = true ->
     output d' =
       Println XBee (Json (payload_of g humidity temperature)) ::
       Println Serial (Json (payload_of g humidity temperature)) :: output dm) /\
  (forall x, In x (tested g humidity temperature) -> F32.isnan x = true ->
     output d' = Println Serial (Txt ERROR_LINE) :: output dm) /\
  (forall pin, nan_propagating lm -> In pin mq_pins -> dead_pin hw pin ->
     output d' = Println Serial (Txt ERROR_LINE) :: output dm) /\
  smoothed d' = smoothed dm /\
  baselines d' = baselines d.
Proof.
  cbv zeta. rewrite loop_run.
  destruct (report_run
              (fst (measure lm hw (snd (handleSerialCalibration lm hw input d))))
              humidity temperature
              (snd (measure lm hw (snd (handleSerialCalibration lm hw input d)))))
    as [Hout Hio].
  rewrite Hout. split; [|split; [|split; [|split]]].
  - intros ->. reflexivity.
  - intros x Hx Hn. now rewrite (all_valid_nan _ x Hx Hn).
  - intros pin Hlm Hpin Hdead. now rewrite (measure_dead lm hw pin _ _ _ Hlm Hpin Hdead).
  - apply io_only_globals, Hio.
  - destruct (io_only_globals _ _ Hio) as [-> _].
    rewrite measure_baselines.
    apply io_only_globals, handleSerialCalibration_io.
Qed.

Lemma reference_libm_nan : nan_propagating reference_libm.
Proof. split; reflexivity. Qed.

Lemma faulty_board_dead : dead_pin faulty_board MQ7_PIN.
Proof. intros k. simpl. now destruct (k <? BOOT_READS)%nat. Qed.

Lemma C1_cycle_guard_witness :
  nan_propagating reference_libm /\ In MQ7_PIN mq_pins /\
  dead_pin faulty_board MQ7_PIN /\
  printed (loop reference_libm faulty_board NoData
             (F32.of_int 40) (F32.of_int 21)) (booted faulty_board) =
    [Println Serial (Txt "Error: Invalid ADC value (0)");
     Println Serial (Txt ERROR_LINE)] /\
  all_valid (tested (fst (measure reference_libm healthy_board
                            (with_io BOOT_READS [] power_on)))
                    (F32.of_int 40) (F32.of_int 21)) = true /\
  output (snd (loop reference_libm healthy_board NoData
                 (F32.of_int 40) (F32.of_int 21)
                 (with_io BOOT_READS [] power_on))) =
    [Println XBee (Json (payload_of
        (fst (measure reference_libm healthy_board
                (with_io BOOT_READS [] power_on)))
        (F32.of_int 40) (F32.of_int 21)));
     Println Serial (Json (payload_of
        (fst (measure reference_libm healthy_board
                (with_io BOOT_READS [] power_on)))
        (F32.of_int 40) (F32.of_int 21)))].
Proof.
  assert (Hpin : In MQ7_PIN mq_pins) by (simpl; auto).
  assert (Hv : all_valid (tested (fst (measure reference_libm healthy_board
                                         (with_io BOOT_READS [] power_on)))
                                 (F32.of_int 40) (F32.of_int 21)) = true)
    by (vm_compute; reflexivity).
  split; [exact reference_libm_nan|]. split; [exact Hpin|].
  split; [exact faulty_board_dead|]. split; [|split; [exact Hv|]].
  - unfold printed.
    destruct (C1_cycle_guard reference_libm faulty_board NoData
                (F32.of_int 40) (F32.of_int 21)
                (with_io (adc_reads (booted faulty_board)) []
                         (booted faulty_board))) as (_ & _ & Hd & _).
    rewrite (Hd MQ7_PIN reference_libm_nan Hpin faulty_board_dead).
    unfold faulty_board.
    destruct (booted_cold_start
                (steady_board (fun pin => if pin =? MQ7_PIN then 0 else 341)))
      as [o ->].
    vm_compute. reflexivity.
  - destruct (C1_cycle_guard reference_libm healthy_board NoData
                (F32.of_int 40) (F32.of_int 21)
                (with_io BOOT_READS [] power_on)) as (Hs & _).
    rewrite (Hs Hv). reflexivity.
Defined.

(** * Further properties *)

(** ** Signs of binary32 results *)

Lemma shr_1_nonneg (mrs : shr_record) :
  0 <= shr_m mrs -> 0 <= shr_m (shr_1 mrs).
Proof.
  destruct mrs as [m r s]. simpl.
  destruct m as [|p|p]; try destruct p; simpl; lia.
Qed.

Lemma iter_pos_keeps {A : Type} (P : A -> Prop) (f : A -> A) :
  (forall x, P x -> P (f x)) -> forall p x, P x -> P (iter_pos f p x).
Proof.
  intros Hf. induction p as [p IH|p IH|]; intros x Hx; simpl; auto.
Qed.

Lemma shr_fexp_nonneg (m e : Z) (l : location) :
  0 <= m -> 0 <= shr_m (fst (shr_fexp F32.prec F32.emax m e l)).
Proof.
  intros Hm. unfold shr_fexp, shr.
  assert (H0 : 0 <= shr_m (shr_record_of_loc m l))
    by (destruct l as [|[| |]]; exact Hm).
  destruct (_ - e) as [|p|p]; simpl; try exact H0.
  apply (iter_pos_keeps (fun r => 0 <= shr_m r)); [exact shr_1_nonneg | exact H0].
Qed.

Lemma round_nearest_even_nonneg (m : Z) (l : location) :
  0 <= m -> 0 <= round_nearest_even m l.
Proof.
  intros Hm. destruct l as [|[| |]]; simpl; try lia.
  destruct (Z.even m); lia.
Qed.

Lemma binary_round_aux_nonneg (m e : Z) (l : location) :
  0 <= m -> nonneg (binary_round_aux F32.prec F32.emax false m e l) = true.
Proof.
  intros Hm. unfold binary_round_aux.
  pose proof (shr_fexp_nonneg m e l Hm) as H1.
  destruct (shr_fexp F32.prec F32.emax m e l) as [mrs' e']. simpl in H1.
  pose proof (shr_fexp_nonneg _ e' loc_Exact
                (round_nearest_even_nonneg _ (loc_of_shr_record mrs') H1)) as H2.
  destruct (shr_fexp F32.prec F32.emax _ e' loc_Exact) as [mrs'' e''].
  simpl in H2. destruct (shr_m mrs'') as [|p|p]; [reflexivity | | lia].
  destruct (e'' <=? _); reflexivity.
Qed.

Lemma add_nonneg (x y : float) :
  nonneg x = true -> nonneg y = true -> nonneg (F32.add x y) = true.
Proof.
  destruct x as [sx|[|]| |[|] mx ex]; try discriminate;
  destruct y as [sy|[|]| |[|] my ey]; try discriminate; intros _ _;
    try reflexivity; try (destruct sx; reflexivity);
    try (destruct sx, sy; reflexivity).
  unfold F32.add, SFadd, cond_Zopp, binary_normalize.
  cbn [Z.add]. unfold binary_round.
  destruct (shl_align _ _ _) as [mz ez].
  now apply binary_round_aux_nonneg.
Qed.

Lemma mul_nonneg (x y : float) :
  positive_float x = true -> nonneg y = true -> nonneg (F32.mul x y) = true.
Proof.
  destruct x as [sx|sx| |[|] mx ex]; try discriminate; intros _;
  destruct y as [sy|[|]| |[|] my ey]; try discriminate; intros _;
    try reflexivity.
  unfold F32.mul, SFmul. cbn [xorb]. now apply binary_round_aux_nonneg.
Qed.

Lemma div_nonneg (x y : float) :
  nonneg x = true -> positive_float y = true -> nonneg (F32.div x y) = true.
Proof.
  destruct y as [sy|sy| |[|] my ey]; try discriminate; intros Hx _.
  destruct x as [sx|[|]| |[|] mx ex]; try discriminate; try reflexivity.
  unfold F32.div, SFdiv. cbn [xorb].
  destruct (SFdiv_core_binary _ _ _ _ _ _) as [[mz ez] lz] eqn:E.
  apply binary_round_aux_nonneg.
  unfold SFdiv_core_binary in E.
  set (m' := match _ - _ - _ with Z0 => _ | Zpos _ => _ | Zneg _ => _ end) in E.
  assert (Hm' : 0 <= m').
  { unfold m'. destruct (_ - _ - _); try lia. apply Z.shiftl_nonneg. lia. }
  pose proof (Z_div_mod m' (Zpos my) ltac:(lia)) as D.
  destruct (Z.div_eucl m' (Zpos my)) as [q r]. inversion E; subst.
  destruct D as [D1 D2]. nia.
Qed.

(** ** Sampler: range and cost *)

Lemma zsum_bounds (lo hi : Z) (l : list Z) :
  Forall (fun s => lo <= s <= hi) l ->
  Z.of_nat (length l) * lo <= zsum l <= Z.of_nat (length l) * hi.
Proof.
  induction 1 as [|s l Hs _ IH]; [simpl; lia|].
  change (zsum (s :: l)) with (s + zsum l).
  rewrite length_cons, Nat2Z.inj_succ. lia.
Qed.

Lemma quot_mean_between (lo hi total k : Z) :
  0 < k -> 0 <= lo -> k * lo <= total <= k * hi ->
  lo <= Z.quot total k <= hi.
Proof.
  intros Hk Hlo [H1 H2]. split.
  - apply Z.quot_le_lower_bound; lia.
  - apply Z.quot_le_upper_bound; lia.
Qed.

Lemma retry_loop_cost (hw : Board) (pin : Z) (n : nat) (val : Z) (d : Device) :
  (0 < n)%nat ->
  exists k, (1 <= k <= n)%nat /\
    snd (retry_loop hw pin n val d) = with_io (adc_reads d + k) (output d) d.
Proof.
  intros Hn.
  destruct (retry_loop_first_valid hw pin n val d Hn) as (j & Hj & E & _).
  exists (S j). split; [lia|]. now rewrite E.
Qed.

Lemma read_samples_cost (hw : Board) (pin : Z) (n : nat) (d : Device) :
  exists k, (n <= k <= ANALOG_READ_RETRIES * n)%nat /\
    snd (read_samples hw pin n d) = with_io (adc_reads d + k) (output d) d.
Proof.
  revert d; induction n as [|n IH]; intros d.
  - exists 0%nat. split; [lia|]. simpl. rewrite Nat.add_0_r. now destruct d.
  - rewrite read_samples_S.
    destruct (retry_loop_cost hw pin ANALOG_READ_RETRIES 0 d ltac:(unfold ANALOG_READ_RETRIES; lia))
      as (k1 & Hk1 & E1).
    fold (analogReadWithRetries hw pin d) in E1.
    destruct (analogReadWithRetries hw pin d) as [s d1]. simpl in E1. subst d1.
    destruct (IH (with_io (adc_reads d + k1) (output d) d)) as (k2 & Hk2 & E2).
    destruct (read_samples hw pin n _) as [rest d2]. simpl in E2. subst d2.
    exists (k1 + k2)%nat. split; [unfold ANALOG_READ_RETRIES in *; lia|].
    simpl. now rewrite Nat.add_assoc.
Qed.

Lemma readAnalogFilteredRaw_between (hw : Board) (pin : Z) (d : Device) :
  adc_range hw pin ->
  exists samples lo hi,
    fst (read_samples hw pin READ_SAMPLE_TIMES d) = samples /\
    In lo samples /\ In hi samples /\
    0 <= lo /\ hi <= 1023 /\
    lo <= fst (readAnalogFilteredRaw hw pin d) <= hi.
Proof.
  intros Hhw.
  destruct (read_samples_range hw pin READ_SAMPLE_TIMES d Hhw) as [L R].
  unfold readAnalogFilteredRaw, readAnalogFilteredRaw_with, bind.
  destruct (read_samples hw pin READ_SAMPLE_TIMES d) as [samples d1].
  simpl in L, R. simpl fst.
  destruct (trim_mean_drops_min_max READ_SAMPLE_TIMES samples L
              ltac:(unfold READ_SAMPLE_TIMES; lia) R)
    as (lo & hi & rest & P & B & Lr & T).
  assert (Ilo : In lo samples)
    by (apply (Permutation_in _ (Permutation_sym P)); now left).
  assert (Ihi : In hi samples)
    by (apply (Permutation_in _ (Permutation_sym P)); right; now left).
  rewrite Forall_forall in R.
  exists samples, lo, hi. split; [reflexivity|].
  split; [exact Ilo|]. split; [exact Ihi|].
  split; [apply (R lo Ilo)|]. split; [apply (R hi Ihi)|].
  rewrite T. apply quot_mean_between.
  - rewrite Lr. unfold READ_SAMPLE_TIMES. simpl. lia.
  - apply (R lo Ilo).
  - apply zsum_bounds. apply Forall_forall. intros s Hs.
    rewrite Forall_forall in B. apply B.
    apply (Permutation_in _ (Permutation_sym P)). right; right; exact Hs.
Qed.

Lemma readAnalogFilteredRaw_cost (hw : Board) (pin : Z) (d : Device) :
  exists k, (5 <= k <= 25)%nat /\
    snd (readAnalogFilteredRaw hw pin d) =
      with_io (adc_reads d + k) (output d) d.
Proof.
  destruct (read_samples_cost hw pin READ_SAMPLE_TIMES d) as (k & Hk & Ek).
  unfold readAnalogFilteredRaw, readAnalogFilteredRaw_with, bind.
  destruct (read_samples hw pin READ_SAMPLE_TIMES d) as [samples d1].
  simpl in Ek. simpl snd. exists k.
  split; [unfold ANALOG_READ_RETRIES, READ_SAMPLE_TIMES in Hk; lia | exact Ek].
Qed.

(** X1. On a 10-bit ADC the filtered reading is itself a code between 0
    and 1023, not below the smallest and not above the largest of the five
    samples; taking it costs between 5 and 25 ADC reads, prints nothing and
    assigns no global. *)
Theorem filtered_reading_in_range (hw : Board) (pin : Z) (d : Device) :
  adc_range hw pin ->
  exists samples lo hi k,
    fst (read_samples hw pin READ_SAMPLE_TIMES d) = samples /\
    In lo samples /\ In hi samples /\
    0 <= lo /\ hi <= 1023 /\
    lo <= fst (readAnalogFilteredRaw hw pin d) <= hi /\
    (5 <= k <= 25)%nat /\
    snd (readAnalogFilteredRaw hw pin d) =
      with_io (adc_reads d + k) (output d) d.
Proof.
  intros Hhw.
  destruct (readAnalogFilteredRaw_between hw pin d Hhw)
    as (samples & lo & hi & Es & Ilo & Ihi & Hlo & Hhi & Hraw).
  destruct (readAnalogFilteredRaw_cost hw pin d) as (k & Hk & Ek).
  exists samples, lo, hi, k.
  split; [exact Es|]. split; [exact Ilo|]. split; [exact Ihi|].
  split; [exact Hlo|]. split; [exact Hhi|]. split; [exact Hraw|].
  split; [exact Hk | exact Ek].
Qed.

Lemma filtered_reading_in_range_witness :
  adc_range (demo_board [10; 1000; 50; 52; 48]) MQ2_PIN /\
  exists samples lo hi k,
    fst (read_samples (demo_board [10; 1000; 50; 52; 48]) MQ2_PIN
           READ_SAMPLE_TIMES power_on) = samples /\
    In lo samples /\ In hi samples /\
    0 <= lo /\ hi <= 1023 /\
    lo <= fst (readAnalogFilteredRaw (demo_board [10; 1000; 50; 52; 48])
                 MQ2_PIN power_on) <= hi /\
    (5 <= k <= 25)%nat /\
    snd (readAnalogFilteredRaw (demo_board [10; 1000; 50; 52; 48])
           MQ2_PIN power_on) =
      with_io (adc_reads power_on + k) (output power_on) power_on.
Proof.
  assert (H : adc_range (demo_board [10; 1000; 50; 52; 48]) MQ2_PIN).
  { apply demo_board_range. repeat constructor; lia. }
  split; [exact H|].
  exact (filtered_reading_in_range (demo_board [10; 1000; 50; 52; 48])
           MQ2_PIN power_on H).
Defined.

(** ** Order of floats and the severity ladder *)

Lemma compare_key (x y : float) :
  F32.isnan x = false -> F32.isnan y = false ->
  exists c, SFcompare x y = Some c /\
    (c = Lt <-> key_lt (key x) (key y)) /\
    (c = Gt <-> key_lt (key y) (key x)).
Proof.
  intros Hx Hy.
  destruct x as [sx|[|]| |[|] mx ex]; try discriminate Hx;
  destruct y as [sy|[|]| |[|] my ey]; try discriminate Hy;
    simpl; eexists; (split; [reflexivity|]); unfold key_lt;
    try (repeat split; intros; try discriminate; try reflexivity; lia).
  - rewrite Pos.compare_cont_spec. simpl Pos.switch_Eq.
    destruct (Z.compare_spec ex ey) as [E|E|E];
      [destruct (Pos.compare_spec mx my) as [M|M|M]; simpl|..];
      repeat split; intros; try discriminate; try reflexivity; lia.
  - rewrite Pos.compare_cont_spec. simpl Pos.switch_Eq.
    destruct (Z.compare_spec ex ey) as [E|E|E];
      [destruct (Pos.compare_spec mx my) as [M|M|M]; simpl|..];
      repeat split; intros; try discriminate; try reflexivity; lia.
Qed.

Lemma ltb_key (x y : float) :
  F32.ltb x y = true <->
  F32.isnan x = false /\ F32.isnan y = false /\ key_lt (key x) (key y).
Proof.
  unfold F32.ltb, SFltb. split.
  - intros H.
    assert (Hx : F32.isnan x = false) by (destruct x; [..|destruct y|]; easy).
    assert (Hy : F32.isnan y = false) by (destruct y; [..|destruct x|]; easy).
    destruct (compare_key x y Hx Hy) as (c & E & L & _). rewrite E in H.
    repeat split; try assumption. apply L. now destruct c.
  - intros (Hx & Hy & K).
    destruct (compare_key x y Hx Hy) as (c & E & L & _). rewrite E.
    apply L in K. now subst c.
Qed.

Lemma leb_key (x y : float) :
  F32.leb x y = true <->
  F32.isnan x = false /\ F32.isnan y = false /\ ~ key_lt (key y) (key x).
Proof.
  unfold F32.leb, SFleb. split.
  - intros H.
    assert (Hx : F32.isnan x = false) by (destruct x; [..|destruct y|]; easy).
    assert (Hy : F32.isnan y = false) by (destruct y; [..|destruct x|]; easy).
    destruct (compare_key x y Hx Hy) as (c & E & _ & G). rewrite E in H.
    repeat split; try assumption. intros K. apply G in K. now subst c.
  - intros (Hx & Hy & K).
    destruct (compare_key x y Hx Hy) as (c & E & _ & G). rewrite E.
    destruct c; try reflexivity. exfalso. apply K, G. reflexivity.
Qed.

Lemma key_lt_trans (a b c : Z * Z * Z) :
  key_lt a b -> key_lt b c -> key_lt a c.
Proof.
  destruct a as [[a1 a2] a3], b as [[b1 b2] b3], c as [[c1 c2] c3].
  unfold key_lt. lia.
Qed.

Lemma key_lt_total (a b : Z * Z * Z) :
  key_lt a b \/ a = b \/ key_lt b a.
Proof.
  destruct a as [[a1 a2] a3], b as [[b1 b2] b3]. unfold key_lt.
  destruct (Z.lt_total a1 b1) as [H|[H|H]]; [lia | | lia].
  destruct (Z.lt_total a2 b2) as [H2|[H2|H2]]; [lia | | lia].
  destruct (Z.lt_total a3 b3) as [H3|[H3|H3]]; [lia | | lia].
  right; left. congruence.
Qed.

Lemma key_lt_irrefl (a : Z * Z * Z) : ~ key_lt a a.
Proof. destruct a as [[a1 a2] a3]. unfold key_lt. lia. Qed.

Lemma leb_trans (x y z : float) :
  F32.leb x y = true -> F32.leb y z = true -> F32.leb x z = true.
Proof.
  rewrite !leb_key. intros (Hx & Hy & K1) (_ & Hz & K2).
  repeat split; try assumption. intros K.
  destruct (key_lt_total (key x) (key y)) as [H|[H|H]].
  - apply K2. eapply key_lt_trans; eassumption.
  - apply K2. now rewrite <- H.
  - contradiction.
Qed.

Lemma leb_false (x c : float) :
  F32.isnan c = false ->
  F32.leb x c = false <-> F32.isnan x = true \/ F32.ltb c x = true.
Proof.
  intros Hc. destruct (F32.isnan x) eqn:Hx.
  - split; [now left|]. intros _. destruct x; try discriminate. reflexivity.
  - split.
    + intros H. right. apply ltb_key. repeat split; try assumption.
      destruct (key_lt_total (key c) (key x)) as [K|[K|K]]; [exact K | |].
      * assert (L : F32.leb x c = true).
        { apply leb_key. repeat split; try assumption.
          rewrite K. apply key_lt_irrefl. }
        congruence.
      * assert (L : F32.leb x c = true).
        { apply leb_key. repeat split; try assumption.
          intros K'. apply (key_lt_irrefl (key x)).
          eapply key_lt_trans; eassumption. }
        congruence.
    + intros [H|H]; [discriminate|].
      apply ltb_key in H. destruct H as (_ & _ & K).
      destruct (F32.leb x c) eqn:L; [|reflexivity].
      apply leb_key in L. destruct L as (_ & _ & L). contradiction.
Qed.

Ltac ladder_cases x :=
  repeat match goal with
         | |- context [if F32.leb x ?c then _ else _] =>
             let E := fresh "E" in destruct (F32.leb x c) eqn:E
         end.

Ltac ladder_keys :=
  repeat match goal with
         | H : F32.leb _ _ = true |- _ =>
             apply leb_key in H; destruct H as (_ & _ & H)
         | H : F32.leb _ _ = false |- _ =>
             apply leb_false in H; [|reflexivity];
             destruct H as [H|H]; [congruence|];
             apply ltb_key in H; destruct H as (_ & _ & H)
         end.

Ltac threshold_keys :=
  repeat match goal with
         | H : context [key (F32.of_int ?n)] |- _ =>
             let k := eval vm_compute in (key (F32.of_int n)) in
             change (key (F32.of_int n)) with k in H
         | |- context [key (F32.of_int ?n)] =>
             let k := eval vm_compute in (key (F32.of_int n)) in
             change (key (F32.of_int n)) with k
         end.

Lemma rung_monotone (x y : float) :
  F32.leb x y = true -> (rung x <= rung y)%nat.
Proof.
  intros H. pose proof H as H'. apply leb_key in H'.
  destruct H' as (Hx & Hy & _).
  unfold rung. ladder_cases x; try lia; ladder_cases y; try lia;
    exfalso; ladder_keys;
    threshold_keys;
    destruct (key x) as [[x1 x2] x3], (key y) as [[y1 y2] y3];
    unfold key_lt in *; lia.
Qed.

Lemma SD_AQI_level_rung (x : float) :
  SD_AQI_level x = nth (rung x) SD_AQI_labels EmptyString.
Proof. unfold SD_AQI_level, rung. ladder_cases x; reflexivity. Qed.

Ltac ladder_absurd :=
  repeat match goal with
         | H : _ /\ _ |- _ => destruct H
         | H : _ \/ _ |- _ => destruct H
         end;
  first [congruence | lia].

Ltac ladder_goal :=
  rewrite ?ltb_key, ?leb_key; threshold_keys;
  try match goal with
      | |- context [key ?x] => destruct (key x) as [[? ?] ?]
      | H : context [key ?x] |- _ => destruct (key x) as [[? ?] ?]
      end;
  unfold key_lt in *;
  split;
  [ let H := fresh in
    intros H;
    first [ discriminate H
          | clear H;
            first [ solve [repeat split; first [reflexivity | assumption | lia]]
                  | solve [right; repeat split;
                           first [reflexivity | assumption | lia]] ] ]
  | let H := fresh in
    intros H; first [reflexivity | exfalso; ladder_absurd] ].

(** X2. The label of [loop] depends on the index alone and its six bands
    do not overlap: "Excellent" up to 50, "Good" above 50 up to 100,
    "Moderate" up to 150, "Unhealthy for Sensitive Groups" up to 200,
    "Unhealthy" up to 300, and "Hazardous" above 300 or when the index is
    NaN; a larger index never gets an earlier label. *)
Theorem severity_ladder (x y : float) :
  (SD_AQI_level x = "Excellent"%string <->
     F32.leb x (F32.of_int 50) = true) /\
  (SD_AQI_level x = "Good"%string <->
     F32.ltb (F32.of_int 50) x = true /\ F32.leb x (F32.of_int 100) = true) /\
  (SD_AQI_level x = "Moderate"%string <->
     F32.ltb (F32.of_int 100) x = true /\ F32.leb x (F32.of_int 150) = true) /\
  (SD_AQI_level x = "Unhealthy for Sensitive Groups"%string <->
     F32.ltb (F32.of_int 150) x = true /\ F32.leb x (F32.of_int 200) = true) /\
  (SD_AQI_level x = "Unhealthy"%string <->
     F32.ltb (F32.of_int 200) x = true /\ F32.leb x (F32.of_int 300) = true) /\
  (SD_AQI_level x = "Hazardous"%string <->
     F32.isnan x = true \/ F32.ltb (F32.of_int 300) x = true) /\
  SD_AQI_level x = nth (rung x) SD_AQI_labels EmptyString /\
  SD_AQI_level y = nth (rung y) SD_AQI_labels EmptyString /\
  (F32.leb x y = true -> (rung x <= rung y)%nat).
Proof.
  split; [|split; [|split; [|split; [|split; [|split; [|split; [|split]]]]]]];
    try apply SD_AQI_level_rung; try apply rung_monotone.
  all: destruct (F32.isnan x) eqn:Hx;
    [destruct x; try discriminate Hx; vm_compute;
     repeat split; intros; try discriminate; intuition discriminate|].
  all: unfold SD_AQI_level; ladder_cases x; ladder_keys.
  all: rewrite ?Hx; ladder_goal.
Qed.

(** ** Baseline calibration and start-up *)

Lemma calibration_loop_io (hw : Board) (pin : Z) (n : nat) (val : float)
    (d : Device) :
  io_only d (snd (calibration_loop hw pin n val d)).
Proof.
  revert val d; induction n as [|n IH]; intros val d; simpl; [io_step|].
  do 2 (apply bind_io; [io_step | intros]).
  destruct (_ || _); [apply bind_io; [io_step | intros; apply IH] | apply IH].
Qed.

Lemma MQCalibration_io (hw : Board) (pin : Z) (caf : float) (d : Device) :
  io_only d (snd (MQCalibration hw pin caf d)).
Proof.
  apply bind_io; [apply calibration_loop_io | intros val d1].
  destruct (F32.leb _ _); repeat io_step.
Qed.

Lemma resistance_nonneg (raw : Z) :
  1 <= raw <= 1023 -> nonneg (resistance raw) = true.
Proof.
  intros H. destruct (Z.eq_dec raw 1023) as [->|H1]; [reflexivity|].
  pose proof (resistance_positive raw ltac:(lia)) as P.
  apply andb_true_iff in P. destruct P as [_ P].
  apply ltb_key in P. destruct P as (_ & Hn & K).
  destruct (resistance raw) as [s|[|]| |[|] m e]; try reflexivity;
    try discriminate Hn; exfalso; revert K;
    change (key (F32.of_int 0)) with (0, 0, 0); unfold key_lt; simpl; lia.
Qed.

Lemma calibration_loop_nonneg (hw : Board) (pin : Z) (n : nat) (val : float)
    (d : Device) :
  adc_range hw pin -> nonneg val = true ->
  nonneg (fst (calibration_loop hw pin n val d)) = true.
Proof.
  intros Hhw. revert val d; induction n as [|n IH]; intros val d Hval; simpl;
    [exact Hval|].
  unfold bind.
  destruct (readAnalogFilteredRaw_between hw pin d Hhw)
    as (samples & lo & hi & _ & _ & _ & Hlo & Hhi & Hraw).
  destruct (readAnalogFilteredRaw hw pin d) as [raw d1]. simpl in Hraw.
  destruct (Z.eq_dec raw 0) as [->|H0].
  - simpl. apply IH, Hval.
  - rewrite MQResistanceCalculation_nonzero by exact H0.
    rewrite not_finite_nan_inf.
    destruct (F32.is_finite (resistance raw)); simpl.
    + apply IH, add_nonneg; [exact Hval | apply resistance_nonneg; lia].
    + apply IH, Hval.
Qed.

Lemma calibration_loop_dead (hw : Board) (pin : Z) (n : nat) (val : float)
    (d : Device) :
  dead_pin hw pin -> fst (calibration_loop hw pin n val d) = val.
Proof.
  intros Hdead. revert d; induction n as [|n IH]; intros d; simpl;
    [reflexivity|].
  unfold bind.
  pose proof (readAnalogFilteredRaw_dead hw pin d Hdead) as R.
  destruct (readAnalogFilteredRaw hw pin d) as [raw d1]. simpl in R. subst raw.
  simpl. apply IH.
Qed.

Lemma MQCalibration_dead (hw : Board) (pin : Z) (caf : float) (d : Device) :
  dead_pin hw pin ->
  fst (MQCalibration hw pin caf d) = F32.of_int 10.
Proof.
  intros Hdead. unfold MQCalibration, bind.
  pose proof (calibration_loop_dead hw pin CALIBARAION_SAMPLE_TIMES
                (F32.of_int 0) d Hdead) as E.
  destruct (calibration_loop hw pin _ _ d) as [val d1]. simpl in E. subst val.
  reflexivity.
Qed.

(** X3. When the input of a sensor reads 0 throughout, [MQCalibration]
    neither fails nor divides: it returns the default 10 whatever the
    clean-air factor, its last line is the failure message, and it assigns
    no global. *)
Theorem MQCalibration_fallback (hw : Board) (pin : Z) (caf : float) (d : Device) :
  dead_pin hw pin ->
  fst (MQCalibration hw pin caf d) = F32.of_int 10 /\
  hd_error (output (snd (MQCalibration hw pin caf d))) =
    Some (Println Serial (Txt CALIBRATION_FAILED)) /\
  io_only d (snd (MQCalibration hw pin caf d)).
Proof.
  intros Hdead.
  split; [apply MQCalibration_dead, Hdead | split; [|apply MQCalibration_io]].
  unfold MQCalibration, bind.
  pose proof (calibration_loop_dead hw pin CALIBARAION_SAMPLE_TIMES
                (F32.of_int 0) d Hdead) as E.
  destruct (calibration_loop hw pin _ _ d) as [val d1]. simpl in E. subst val.
  reflexivity.
Qed.

Lemma MQCalibration_fallback_witness :
  dead_pin faulty_board MQ7_PIN /\
  fst (MQCalibration faulty_board MQ7_PIN (F32.lit 2732 2) power_on) =
    F32.of_int 10.
Proof.
  split; [exact faulty_board_dead|].
  exact (proj1 (MQCalibration_fallback faulty_board MQ7_PIN (F32.lit 2732 2)
                  power_on faulty_board_dead)).
Defined.

Lemma MQCalibration_nonneg (hw : Board) (pin : Z) (caf : float) (d : Device) :
  adc_range hw pin -> positive_float caf = true ->
  nonneg (fst (MQCalibration hw pin caf d)) = true.
Proof.
  intros Hhw Hcaf. unfold MQCalibration, bind.
  pose proof (calibration_loop_nonneg hw pin CALIBARAION_SAMPLE_TIMES
                (F32.of_int 0) d Hhw eq_refl) as N.
  destruct (calibration_loop hw pin _ _ d) as [val d1]. simpl in N.
  destruct (F32.leb val (F32.of_int 0)); [reflexivity|].
  simpl. apply div_nonneg; [|exact Hcaf].
  apply div_nonneg; [exact N | reflexivity].
Qed.

Lemma nonneg_number (x : float) :
  nonneg x = true ->
  F32.isnan x = false /\ F32.ltb x (F32.of_int 0) = false.
Proof.
  destruct x as [s|[|]| |[|] m e]; try discriminate; intros _;
    split; reflexivity.
Qed.

(** X4. On a 10-bit ADC and with a clean-air factor above zero,
    [MQCalibration] never returns NaN and never a value below zero: the
    baseline it computes is a zero, a positive float or +infinity. *)
Theorem MQCalibration_not_nan (hw : Board) (pin : Z) (caf : float) (d : Device) :
  adc_range hw pin -> positive_float caf = true ->
  F32.isnan (fst (MQCalibration hw pin caf d)) = false /\
  F32.ltb (fst (MQCalibration hw pin caf d)) (F32.of_int 0) = false /\
  nonneg (fst (MQCalibration hw pin caf d)) = true.
Proof.
  intros Hhw Hcaf.
  pose proof (MQCalibration_nonneg hw pin caf d Hhw Hcaf) as N.
  destruct (nonneg_number _ N) as [H1 H2].
  split; [exact H1|]. split; [exact H2 | exact N].
Qed.

Lemma MQCalibration_not_nan_witness :
  adc_range (demo_board []) MQ2_PIN /\ positive_float (F32.lit 983 2) = true /\
  F32.isnan (fst (MQCalibration (demo_board []) MQ2_PIN (F32.lit 983 2) power_on))
    = false.
Proof.
  assert (H : adc_range (demo_board []) MQ2_PIN)
    by (apply demo_board_range; constructor).
  split; [exact H|]. split; [reflexivity|].
  exact (proj1 (MQCalibration_not_nan (demo_board []) MQ2_PIN (F32.lit 983 2)
                  power_on H eq_refl)).
Defined.

Lemma bind_snd {A B : Type} (c : M A) (k : M B) (d : Device) :
  snd (bind c (fun _ => k) d) = snd (k (snd (c d))).
Proof. unfold bind. now destruct (c d). Qed.

Lemma calibrate_run (hw : Board) (name : string) (pin : Z) (caf : float)
    (set_Ro : float -> Device -> Device) (d : Device) :
  (forall v n o d0, set_Ro v (with_io n o d0) = with_io n o (set_Ro v d0)) ->
  exists n o dmid r,
    r = fst (MQCalibration hw pin caf dmid) /\
    snd (calibrate hw name pin caf set_Ro d) = with_io n o (set_Ro r d).
Proof.
  intros Hset. unfold calibrate, bind, println, emit.
  set (d1 := with_io (adc_reads d) _ d).
  destruct (MQCalibration_io hw pin caf d1) as (n & o & E).
  exists n, (Println Serial (Num (fst (MQCalibration hw pin caf d1)) 2) ::
             Print Serial (Txt ("Ro for " ++ name ++ ": ")) :: o), d1.
  destruct (MQCalibration hw pin caf d1) as [r d2]. cbn [fst snd] in *.
  subst d2. exists r. split; [reflexivity|].
  unfold d1. rewrite !Hset. reflexivity.
Qed.

Lemma setup_run (hw : Board) (d : Device) :
  exists n o r2 r7 r4 r9 r135 r8 d2 d7 d4 d9 d135 d8,
    r2 = fst (MQCalibration hw MQ2_PIN (F32.lit 983 2) d2) /\
    r7 = fst (MQCalibration hw MQ7_PIN (F32.lit 2732 2) d7) /\
    r4 = fst (MQCalibration hw MQ4_PIN (F32.lit 440 2) d4) /\
    r9 = fst (MQCalibration hw MQ9_PIN (F32.lit 980 2) d9) /\
    r135 = fst (MQCalibration hw MQ135_PIN (F32.lit 36 1) d135) /\
    r8 = fst (MQCalibration hw MQ8_PIN (F32.lit 999 2) d8) /\
    snd (setup hw d) =
      with_io n o (with_baselines (r2, r7, r4, r9, r135, r8) d).
Proof.
  unfold setup. rewrite !bind_snd.
  destruct (calibrate_run hw "MQ-2" MQ2_PIN (F32.lit 983 2) set_Ro_MQ2 d
              ltac:(reflexivity)) as (n2 & o2 & d2 & r2 & H2 & ->).
  destruct (calibrate_run hw "MQ-7" MQ7_PIN (F32.lit 2732 2) set_Ro_MQ7
              (with_io n2 o2 (set_Ro_MQ2 r2 d))
              ltac:(reflexivity)) as (n7 & o7 & d7 & r7 & H7 & ->).
  destruct (calibrate_run hw "MQ-4" MQ4_PIN (F32.lit 440 2) set_Ro_MQ4
              (with_io n7 o7 (set_Ro_MQ7 r7 (with_io n2 o2 (set_Ro_MQ2 r2 d))))
              ltac:(reflexivity)) as (n4 & o4 & d4 & r4 & H4 & ->).
  match goal with
  | |- context [calibrate hw "MQ-9" _ _ _ ?x] =>
      destruct (calibrate_run hw "MQ-9" MQ9_PIN (F32.lit 980 2) set_Ro_MQ9 x
                  ltac:(reflexivity)) as (n9 & o9 & d9 & r9 & H9 & ->)
  end.
  match goal with
  | |- context [calibrate hw "MQ-135" _ _ _ ?x] =>
      destruct (calibrate_run hw "MQ-135" MQ135_PIN (F32.lit 36 1) set_Ro_MQ135 x
                  ltac:(reflexivity)) as (n135 & o135 & d135 & r135 & H135 & ->)
  end.
  match goal with
  | |- context [calibrate hw "MQ-8" _ _ _ ?x] =>
      destruct (calibrate_run hw "MQ-8" MQ8_PIN (F32.lit 999 2) set_Ro_MQ8 x
                  ltac:(reflexivity)) as (n8 & o8 & d8 & r8 & H8 & ->)
  end.
  eexists _, _, r2, r7, r4, r9, r135, r8, d2, d7, d4, d9, d135, d8.
  repeat (split; [assumption|]).
  unfold println, emit. cbn -[F32.lit]. reflexivity.
Qed.



(** ** No NaN is ever stored *)

Lemma globals_split (d : Device) :
  globals d = tuple6 (baselines d) ++ tuple6 (smoothed d).
Proof. reflexivity. Qed.

Lemma sane_split (d : Device) :
  sane d <->
  Forall (fun x => nonneg x = true) (tuple6 (baselines d)) /\
  Forall (fun x => nonneg x = true) (tuple6 (smoothed d)).
Proof. unfold sane. rewrite globals_split. apply Forall_app. Qed.

Lemma sane_io (d d' : Device) : io_only d d' -> sane d -> sane d'.
Proof.
  intros H. destruct (io_only_globals _ _ H) as [Hb Hs].
  rewrite !sane_split, Hb, Hs. tauto.
Qed.

Lemma ema_nonneg (s rs : float) :
  nonneg s = true -> nonneg rs = true -> nonneg (ema s rs) = true.
Proof.
  intros Hs Hrs. unfold ema. destruct (F32.leb s _); [exact Hrs|].
  apply add_nonneg; apply mul_nonneg; try assumption; reflexivity.
Qed.

Lemma smoothed_after_nonneg (p : Z) (rs : float)
    (t : float * float * float * float * float * float) :
  nonneg rs = true ->
  Forall (fun x => nonneg x = true) (tuple6 t) ->
  Forall (fun x => nonneg x = true) (tuple6 (smoothed_after p rs t)).
Proof.
  intros Hrs. destruct t as [[[[[a b] c] e] f] g]. unfold smoothed_after.
  intros H. simpl in H.
  repeat match goal with
         | H : Forall _ (_ :: _) |- _ => inversion_clear H
         end.
  repeat match goal with
         | |- context [p =? ?c] => destruct (p =? c)
         end; simpl; repeat constructor; try assumption;
    apply ema_nonneg; assumption.
Qed.

Lemma MQRead_sane (hw : Board) (pin : Z) (Ro : float) (d : Device) :
  adc_range hw pin -> sane d -> sane (snd (MQRead hw pin Ro d)).
Proof.
  intros Hhw Hd.
  destruct (readAnalogFilteredRaw_between hw pin d Hhw)
    as (samples & lo & hi & _ & _ & _ & Hlo & Hhi & Hraw).
  destruct (MQRead_run hw pin Ro d) as (raw & d1 & E & _ & H).
  rewrite E in Hraw. simpl in Hraw.
  destruct H as [(_ & _ & Hio)|[[H0 _] (Hb & _ & _ & Hs & _)]].
  - exact (sane_io _ _ Hio Hd).
  - apply sane_split. apply sane_split in Hd. destruct Hd as [Hdb Hds].
    rewrite Hb, Hs. split; [exact Hdb|].
    apply smoothed_after_nonneg; [|exact Hds].
    apply resistance_nonneg. lia.
Qed.

Lemma estimate_sane (lm : Libm) (hw : Board) (pin : Z) (Ro_of : Device -> float)
    (c : curve) (d : Device) :
  adc_range hw pin -> sane d -> sane (snd (estimate lm hw pin Ro_of c d)).
Proof. intros Hhw Hd. rewrite estimate_run. now apply MQRead_sane. Qed.

Lemma measure_sane (lm : Libm) (hw : Board) (d : Device) :
  (forall pin, In pin mq_pins -> adc_range hw pin) ->
  sane d -> sane (snd (measure lm hw d)).
Proof.
  intros Hhw Hd. unfold measure, bind.
  repeat match goal with
         | |- context [estimate lm hw ?p ?r ?c ?x] =>
             let H := fresh "S" in
             assert (H : sane (snd (estimate lm hw p r c x)))
               by (apply estimate_sane;
                   [apply Hhw; simpl; tauto | assumption]);
             destruct (estimate lm hw p r c x) as [? ?]; simpl in H
         end.
  simpl. assumption.
Qed.

Lemma loop_sane (lm : Libm) (hw : Board) (input : serial_input)
    (humidity temperature : float) (d : Device) :
  (forall pin, In pin mq_pins -> adc_range hw pin) ->
  sane d -> sane (snd (loop lm hw input humidity temperature d)).
Proof.
  intros Hhw Hd. rewrite loop_run.
  eapply sane_io; [apply report_run|].
  apply measure_sane; [exact Hhw|].
  eapply sane_io; [apply handleSerialCalibration_io | exact Hd].
Qed.

Lemma booted_sane (hw : Board) :
  (forall pin, In pin mq_pins -> adc_range hw pin) -> sane (booted hw).
Proof.
  intros Hhw. unfold booted.
  destruct (setup_run hw power_on)
    as (n & o & r2 & r7 & r4 & r9 & r135 & r8 & d2 & d7 & d4 & d9 & d135 & d8 &
        H2 & H7 & H4 & H9 & H135 & H8 & E).
  rewrite E. unfold sane, globals. cbn -[MQCalibration nonneg].
  subst. repeat constructor;
    apply MQCalibration_nonneg; try reflexivity; apply Hhw; simpl; tauto.
Qed.

(** X6. On a board with a 10-bit ADC, at the start of every cycle of
    every run, none of the six baselines and none of the six smoothed
    states is NaN or negative, whatever the serial port, the DHT sensor
    and [math.h] deliver. *)
Theorem globals_never_nan (lm : Libm) (hw : Board) (d : Device) :
  (forall pin, In pin mq_pins -> adc_range hw pin) ->
  reachable lm hw d ->
  Forall (fun x => nonneg x = true) (globals d).
Proof.
  intros Hhw R. induction R as [|d input humidity temperature R IH].
  - now apply booted_sane.
  - now apply loop_sane.
Qed.

(** ** What a cycle writes *)

Section Appends.

Variable P : event -> bool.

Lemma appends_refl (d : Device) : appends P d d.
Proof. exists []. split; reflexivity. Qed.

Lemma appends_trans (d1 d2 d3 : Device) :
  appends P d1 d2 -> appends P d2 d3 -> appends P d1 d3.
Proof.
  intros (n1 & E1 & F1) (n2 & E2 & F2). exists (n2 ++ n1). split.
  - now rewrite E2, E1, app_assoc.
  - rewrite forallb_app, F1, F2. reflexivity.
Qed.

Lemma appends_bind {A B : Type} (c : M A) (k : A -> M B) (d : Device) :
  appends P d (snd (c d)) ->
  (forall a d1, appends P d1 (snd (k a d1))) ->
  appends P d (snd (bind c k d)).
Proof.
  intros Hc Hk. unfold bind. destruct (c d) as [a d1].
  eapply appends_trans; [exact Hc | apply Hk].
Qed.

Lemma appends_emit (e : event) (d : Device) :
  P e = true -> appends P d (snd (emit e d)).
Proof. intros H. exists [e]. split; [reflexivity | simpl; now rewrite H]. Qed.

Lemma appends_quiet (d d' : Device) : output d' = output d -> appends P d d'.
Proof. intros H. exists []. split; [exact H | reflexivity]. Qed.

Lemma readAnalogFilteredRaw_quiet (hw : Board) (pin : Z) (d : Device) :
  appends P d (snd (readAnalogFilteredRaw hw pin d)).
Proof.
  apply appends_quiet.
  unfold readAnalogFilteredRaw, readAnalogFilteredRaw_with, bind.
  destruct (read_samples_cost hw pin READ_SAMPLE_TIMES d) as (k & _ & E).
  destruct (read_samples hw pin READ_SAMPLE_TIMES d) as [s d1].
  simpl in *. now subst d1.
Qed.

End Appends.

Ltac out_step :=
  first [ apply appends_refl
        | apply readAnalogFilteredRaw_quiet
        | apply appends_emit; reflexivity
        | apply appends_bind; [|intros] ].

Lemma MQResistanceCalculation_out (raw : Z) (d : Device) :
  appends cycle_event d (snd (MQResistanceCalculation raw d)).
Proof.
  unfold MQResistanceCalculation, println. destruct (raw =? 0); repeat out_step.
Qed.

Lemma MQRead_out (hw : Board) (pin : Z) (Ro : float) (d : Device) :
  appends cycle_event d (snd (MQRead hw pin Ro d)).
Proof.
  unfold MQRead.
  apply appends_bind; [out_step | intros raw d1].
  apply appends_bind; [apply MQResistanceCalculation_out | intros rs d2].
  destruct (_ || _); [out_step|].
  repeat match goal with
         | |- context [pin =? ?c] => destruct (pin =? c)
         end; try out_step; apply appends_quiet; now destruct d2.
Qed.

Lemma measure_out (lm : Libm) (hw : Board) (d : Device) :
  appends cycle_event d (snd (measure lm hw d)).
Proof.
  unfold measure.
  repeat (apply appends_bind;
          [rewrite estimate_run; apply MQRead_out | intros]).
  out_step.
Qed.

Lemma report_out (g : Estimates) (humidity temperature : float) (d : Device) :
  appends cycle_event d (snd (report g humidity temperature d)).
Proof.
  unfold report, println. destruct (all_valid _); repeat out_step.
Qed.

Lemma measure_loop_out (hw : Board) (pin : Z) (n : nat) (c : Z) (s : float)
    (d : Device) :
  appends cycle_event d (snd (measure_loop hw pin n c s d)).
Proof.
  revert c s d; induction n as [|n IH]; intros c s d; simpl; [out_step|].
  apply appends_bind; [out_step | intros].
  apply appends_bind; [apply MQResistanceCalculation_out | intros].
  destruct (_ || _); apply IH.
Qed.

Lemma measureRsOverRo_out (hw : Board) (pin : Z) (Ro : float) (n : nat)
    (d : Device) :
  appends cycle_event d (snd (measureRsOverRo hw pin Ro n d)).
Proof.
  apply appends_bind; [apply measure_loop_out | intros [c s] d1].
  destruct (c =? 0); out_step.
Qed.

Lemma parse_ppm_out (n : nat) (toks : list token) (d : Device) :
  appends cycle_event d (snd (parse_ppm n toks d)).
Proof.
  revert toks d; induction n as [|n IH]; intros toks d; simpl; [out_step|].
  unfold println.
  destruct toks as [|tok rest]; [repeat out_step|].
  destruct (F32.leb _ _); [repeat out_step|].
  apply appends_bind; [apply IH | intros; out_step].
Qed.

Lemma collect_points_out (hw : Board) (pin : Z) (Ro : float)
    (ppmList : list float) (d : Device) :
  appends cycle_event d (snd (collect_points hw pin Ro ppmList d)).
Proof.
  revert d; induction ppmList as [|ppm rest IH]; intros d; simpl; [out_step|].
  unfold println.
  do 3 (apply appends_bind; [out_step | intros]).
  apply appends_bind; [apply measureRsOverRo_out | intros].
  do 4 (apply appends_bind; [out_step | intros]).
  destruct (_ || _); [repeat out_step|].
  apply appends_bind; [apply IH | intros; out_step].
Qed.

Lemma handleSerialCalibration_out (lm : Libm) (hw : Board)
    (input : serial_input) (d : Device) :
  appends cycle_event d (snd (handleSerialCalibration lm hw input d)).
Proof.
  unfold handleSerialCalibration, println.
  destruct input as [|cmd line]; [out_step|].
  destruct (negb (is_C cmd)); [out_step|].
  do 5 (apply appends_bind; [out_step | intros]).
  destruct line as [|tok_sensor [|tok_N toks]]; [repeat out_step ..|].
  destruct (_ || _); [repeat out_step|].
  apply appends_bind; [apply parse_ppm_out | intros [ppmList|] ?]; [|out_step].
  destruct (sensor_pin _) as [[pin Ro_of]|]; [|repeat out_step].
  apply appends_bind; [unfold get; out_step | intros].
  apply appends_bind; [apply collect_points_out | intros [rsroList|] ?];
    [|out_step].
  destruct (computeMultiPointCurve _ _ _ _) as [[[p0 p1] p2]|]; repeat out_step.
Qed.

Lemma loop_out (lm : Libm) (hw : Board) (input : serial_input)
    (humidity temperature : float) (d : Device) :
  appends cycle_event d (snd (loop lm hw input humidity temperature d)).
Proof.
  rewrite loop_run.
  eapply appends_trans; [apply handleSerialCalibration_out|].
  eapply appends_trans; [apply measure_out | apply report_out].
Qed.

(** X7. A cycle only adds to what was written before it.  On the radio
    it writes nothing but the JSON object, and on neither port does it
    ever write one of the six alert lines: [loop] does not evaluate the
    absolute thresholds. *)
Theorem cycle_writes (lm : Libm) (hw : Board) (input : serial_input)
    (humidity temperature : float) (d : Device) :
  exists new,
    output (snd (loop lm hw input humidity temperature d)) = new ++ output d /\
    (forall e, In e new -> port_of e = XBee ->
       exists j, e = Println XBee (Json j)) /\
    (forall p m, In m alert_messages ->
       ~ In (Println p (Txt m)) new /\ ~ In (Print p (Txt m)) new).
Proof.
  destruct (loop_out lm hw input humidity temperature d) as (new & E & F).
  exists new. split; [exact E|]. rewrite forallb_forall in F. split.
  - intros e He Hp. specialize (F e He).
    destruct e as [[|] i|[|] i]; try discriminate Hp; try discriminate F.
    destruct i; try discriminate F. now eexists.
  - intros p m Hm.
    assert (A : is_alert m = true).
    { unfold is_alert. apply existsb_exists. exists m.
      split; [exact Hm | apply String.eqb_refl]. }
    split; intros He; specialize (F _ He); destruct p; simpl in F;
      try discriminate F; rewrite A in F; discriminate F.
Qed.

(** ** A cycle on clean inputs *)













(** ** The calibration session *)


Lemma parse_ppm_ok (n : nat) (toks : list token) (d : Device) :
  (n <= List.length toks)%nat ->
  Forall (fun t => F32.leb (atof t) (F32.of_int 0) = false) (firstn n toks) ->
  parse_ppm n toks d = (Some (map atof (firstn n toks)), d).
Proof.
  revert toks d; induction n as [|n IH]; intros toks d Hn F; [reflexivity|].
  destruct toks as [|tok rest]; [simpl in Hn; lia|].
  simpl in Hn, F. inversion F as [|? ? Hv F']; subst.
  simpl. rewrite Hv. unfold bind. rewrite IH by (lia || exact F'). reflexivity.
Qed.




Lemma with_io_with_io (n n' : nat) (o o' : list event) (d : Device) :
  with_io n o (with_io n' o' d) = with_io n o d.
Proof. now destruct d. Qed.

Lemma with_io_fields (n : nat) (o : list event) (d : Device) :
  adc_reads (with_io n o d) = n /\ output (with_io n o d) = o.
Proof. now destruct d. Qed.

Lemma with_io_same (d : Device) : with_io (adc_reads d) (output d) d = d.
Proof. now destruct d. Qed.

Ltac io_norm :=
  repeat first
    [ rewrite with_io_with_io
    | rewrite (proj1 (with_io_fields _ _ _))
    | rewrite (proj2 (with_io_fields _ _ _)) ].

Lemma retry_loop_dead_run (hw : Board) (pin : Z) (n : nat) (d : Device) :
  dead_pin hw pin ->
  retry_loop hw pin n 0 d = (0, with_io (adc_reads d + n) (output d) d).
Proof.
  intros Hdead. revert d; induction n as [|n IH]; intros d.
  - cbn [retry_loop]. unfold ret. now rewrite Nat.add_0_r, with_io_same.
  - cbn [retry_loop]. unfold bind, analogRead. rewrite Hdead.
    change ((0 <? 0) && (0 <? 1023)) with false. cbv iota. rewrite IH.
    io_norm. do 2 f_equal. lia.
Qed.

Lemma read_samples_dead_run (hw : Board) (pin : Z) (n : nat) (d : Device) :
  dead_pin hw pin ->
  read_samples hw pin n d =
    (repeat 0 n, with_io (adc_reads d + 5 * n) (output d) d).
Proof.
  intros Hdead. revert d; induction n as [|n IH]; intros d.
  - cbn [read_samples repeat]. unfold ret.
    now rewrite Nat.mul_0_r, Nat.add_0_r, with_io_same.
  - rewrite read_samples_S. unfold analogReadWithRetries, ANALOG_READ_RETRIES.
    rewrite (retry_loop_dead_run hw pin 5 d Hdead), IH.
    io_norm. cbn [repeat]. do 2 f_equal. lia.
Qed.

Lemma readAnalogFilteredRaw_dead_run (hw : Board) (pin : Z) (d : Device) :
  dead_pin hw pin ->
  readAnalogFilteredRaw hw pin d =
    (0, with_io (adc_reads d + 25) (output d) d).
Proof.
  intros Hdead. unfold readAnalogFilteredRaw, readAnalogFilteredRaw_with, bind.
  rewrite (read_samples_dead_run hw pin READ_SAMPLE_TIMES d Hdead).
  reflexivity.
Qed.

Lemma measure_loop_dead (hw : Board) (pin : Z) (n : nat) (c : Z) (s : float)
    (d : Device) :
  dead_pin hw pin ->
  measure_loop hw pin n c s d =
    (c, s, with_io (adc_reads d + 25 * n)
             (repeat (Println Serial (Txt INVALID_ADC)) n ++ output d) d).
Proof.
  intros Hdead. revert d; induction n as [|n IH]; intros d.
  - cbn [measure_loop repeat app]. unfold ret.
    now rewrite Nat.mul_0_r, Nat.add_0_r, with_io_same.
  - cbn [measure_loop]. unfold bind.
    rewrite (readAnalogFilteredRaw_dead_run hw pin d Hdead).
    unfold MQResistanceCalculation, println, emit, bind, ret. cbn [Z.eqb].
    cbv beta iota. change (F32.isnan F32.NAN || F32.isinf F32.NAN) with true.
    cbv iota. rewrite IH. io_norm.
    cbn [repeat]. rewrite repeat_cons, <- app_assoc.
    do 2 f_equal. lia.
Qed.

Lemma measureRsOverRo_dead (hw : Board) (pin : Z) (Ro : float) (n : nat)
    (d : Device) :
  dead_pin hw pin ->
  measureRsOverRo hw pin Ro n d =
    (F32.NAN, with_io (adc_reads d + 25 * n)
                (repeat (Println Serial (Txt INVALID_ADC)) n ++ output d) d).
Proof.
  intros Hdead. unfold measureRsOverRo, bind.
  rewrite (measure_loop_dead hw pin n 0 (F32.of_int 0) d Hdead). reflexivity.
Qed.

Lemma bind_emit {A : Type} (e : event) (k : unit -> M A) (n : nat)
    (o : list event) (d : Device) :
  bind (emit e) k (with_io n o d) = k tt (with_io n (e :: o) d).
Proof. now destruct d. Qed.

Ltac emit_steps := repeat (rewrite bind_emit; cbv beta).

Lemma collect_points_dead (hw : Board) (pin : Z) (Ro ppm : float)
    (rest : list float) (n : nat) (o : list event) (d : Device) :
  dead_pin hw pin ->
  exists shown,
    collect_points hw pin Ro (ppm :: rest) (with_io n o d) =
      (None,
       with_io (n + 250)
         (Println Serial (Txt INVALID_MEASUREMENT) ::
          Println Serial (Num F32.NAN 2) :: shown ++
          repeat (Println Serial (Txt INVALID_ADC)) 10 ++
          Println Serial
            (Txt "When ready press Enter in Serial Monitor to measure...") ::
          Println Serial (Num ppm 2) ::
          Print Serial (Txt "Please expose sensor to ppm=") :: o) d).
Proof.
  intros Hdead. cbn [collect_points]. unfold println. emit_steps.
  unfold bind at 1. rewrite (measureRsOverRo_dead hw pin Ro 10 _ Hdead).
  io_norm. cbv iota. emit_steps.
  change (F32.isnan F32.NAN || F32.leb F32.NAN (F32.of_int 0)) with true.
  cbv iota. emit_steps. unfold ret.
  eexists [_; _; _]. reflexivity.
Qed.

(** X10. A well-formed request for a sensor whose input reads 0 at every
    attempt is aborted at the first reference point: the ten measurements
    take 250 ADC reads and each prints the invalid-ADC line, the ratio
    shown to the operator is NaN, the last line is the abort message, and
    no fit is attempted. *)
Theorem session_on_dead_sensor (lm : Libm) (hw : Board) (cmd : ascii)
    (tok_sensor tok_N : token) (toks : list token) (pin : Z)
    (Ro_of : Device -> float) (d : Device) :
  is_C cmd = true ->
  2 <= atoi tok_N <= 10 ->
  sensor_pin (atoi tok_sensor) = Some (pin, Ro_of) ->
  (Z.to_nat (atoi tok_N) <= List.length toks)%nat ->
  Forall (fun t => F32.leb (atof t) (F32.of_int 0) = false)
    (firstn (Z.to_nat (atoi tok_N)) toks) ->
  dead_pin hw pin ->
  let run :=
    handleSerialCalibration lm hw
      (Received cmd (tok_sensor :: tok_N :: toks)) d in
  fst run = Aborted /\
  adc_reads (snd run) = (adc_reads d + 250)%nat /\
  exists shown older,
    output (snd run) =
      Println Serial (Txt INVALID_MEASUREMENT) ::
      Println Serial (Num F32.NAN 2) :: shown ++
      repeat (Println Serial (Txt INVALID_ADC)) 10 ++ older.
Proof.
  intros HC [HN1 HN2] Hs Hlen F Hdead. cbv zeta.
  assert (E : forall n o, exists shown older,
             handleSerialCalibration lm hw
               (Received cmd (tok_sensor :: tok_N :: toks)) (with_io n o d) =
             (Aborted,
              with_io (n + 250)
                (Println Serial (Txt INVALID_MEASUREMENT) ::
                 Println Serial (Num F32.NAN 2) :: shown ++
                 repeat (Println Serial (Txt INVALID_ADC)) 10 ++ older) d)).
  { intros n o. unfold handleSerialCalibration. rewrite HC. cbn [negb]. cbv iota.
    unfold println. emit_steps.
    replace ((atoi tok_N <? 2) || (10 <? atoi tok_N)) with false
      by (symmetry; apply orb_false_iff; split; apply Z.ltb_ge; lia).
    cbv iota. unfold bind at 1.
    rewrite (parse_ppm_ok _ _ _ Hlen F). cbv iota. rewrite Hs.
    unfold bind at 1 2. unfold get at 1. cbv beta iota.
    destruct (Z.to_nat (atoi tok_N)) as [|m] eqn:Em; [lia|].
    destruct toks as [|tok rest]; [cbn [List.length] in Hlen; lia|].
    cbn [firstn map].
    match goal with
    | |- context [collect_points hw pin ?r (?p :: ?l) (with_io ?a ?b d)] =>
        destruct (collect_points_dead hw pin r p l a b d Hdead) as (shown & ->)
    end.
    cbv iota. unfold ret.
    eexists shown, _. reflexivity. }
  destruct (E (adc_reads d) (output d)) as (shown & older & R).
  rewrite with_io_same in R. rewrite R. cbn [fst snd]. io_norm.
  split; [reflexivity|]. split; [reflexivity|].
  exists shown, older. reflexivity.
Qed.

Lemma session_on_dead_sensor_witness :
  fst (handleSerialCalibration reference_libm
         (steady_board (fun pin => if pin =? MQ7_PIN then 0 else 341))
         (Received "c" [num_token 7; num_token 2; num_token 10; num_token 100])
         power_on) = Aborted /\
  adc_reads
    (snd (handleSerialCalibration reference_libm
            (steady_board (fun pin => if pin =? MQ7_PIN then 0 else 341))
            (Received "c" [num_token 7; num_token 2; num_token 10; num_token 100])
            power_on)) = 250%nat.
Proof.
  destruct (session_on_dead_sensor reference_libm
              (steady_board (fun pin => if pin =? MQ7_PIN then 0 else 341))
              "c" (num_token 7) (num_token 2) [num_token 10; num_token 100]
              MQ7_PIN Ro_MQ7 power_on) as (H1 & H2 & _).
  - reflexivity.
  - simpl. lia.
  - reflexivity.
  - simpl. lia.
  - repeat constructor.
  - intros k. reflexivity.
  - split; [exact H1 | exact H2].
Defined.

(** ** The multi-point fit and the index on invalid numbers *)

Lemma add_nan_l (x : float) : F32.add F32.NAN x = F32.NAN.
Proof. now destruct x. Qed.

Lemma add_nan_r (x : float) : F32.add x F32.NAN = F32.NAN.
Proof. now destruct x. Qed.

Lemma sub_nan_l (x : float) : F32.sub F32.NAN x = F32.NAN.
Proof. now destruct x. Qed.

Lemma sub_nan_r (x : float) : F32.sub x F32.NAN = F32.NAN.
Proof. now destruct x. Qed.

Lemma mul_nan_l (x : float) : F32.mul F32.NAN x = F32.NAN.
Proof. now destruct x. Qed.

Lemma mul_nan_r (x : float) : F32.mul x F32.NAN = F32.NAN.
Proof. now destruct x. Qed.

Lemma div_nan_l (x : float) : F32.div F32.NAN x = F32.NAN.
Proof. now destruct x. Qed.

Lemma div_nan_r (x : float) : F32.div x F32.NAN = F32.NAN.
Proof. now destruct x. Qed.

Lemma isnan_eq (x : float) : F32.isnan x = true -> x = F32.NAN.
Proof. now destruct x. Qed.

Lemma regression_sums_some (lm : Libm) (pts : list (float * float))
    (acc res : float * float * float * float) :
  regression_sums lm pts acc = Some res ->
  Forall (fun pr => fit_point_ok pr = true) pts /\
  fst (fst (fst res)) =
    fold_left (fun s r => F32.add s (log lm r)) (map snd pts)
      (fst (fst (fst acc))).
Proof.
  revert acc; induction pts as [|[p r] rest IH]; intros acc;
    cbn [regression_sums map fold_left].
  - intros H. injection H as <-. split; [constructor | reflexivity].
  - destruct (F32.leb r (F32.of_int 0) || F32.leb p (F32.of_int 0)) eqn:Hv;
      [discriminate|].
    destruct acc as [[[sx sy] sxy] sx2]. intros H.
    destruct (IH _ H) as [F E]. split.
    + constructor; [|exact F]. unfold fit_point_ok. cbn [fst snd].
      now rewrite Hv.
    + exact E.
Qed.

Lemma firstn_combine_at {A B : Type} (P : A * B -> Prop) (n : nat)
    (l : list A) (l' : list B) (a : A) (b : B) :
  (n <= List.length l)%nat -> (n <= List.length l')%nat ->
  (Forall P (firstn n (combine l l')) <->
   forall i, (i < n)%nat -> P (nth i l a, nth i l' b)).
Proof.
  revert l l'; induction n as [|n IH]; intros l l' Hl Hl'.
  - cbn [firstn]. split; [intros _ i Hi; lia | constructor].
  - destruct l as [|x l]; [cbn [List.length] in Hl; lia|].
    destruct l' as [|y l']; [cbn [List.length] in Hl'; lia|].
    cbn [List.length] in Hl, Hl'. cbn [combine firstn].
    specialize (IH l l' ltac:(lia) ltac:(lia)). split.
    + intros F i Hi. inversion F as [|? ? Hx F']; subst.
      destruct i as [|i]; [exact Hx|]. cbn [nth]. apply IH; [exact F' | lia].
    + intros H. constructor; [exact (H 0%nat ltac:(lia))|].
      apply IH. intros i Hi. exact (H (S i) ltac:(lia)).
Qed.

Lemma firstn_combine_snd {A B : Type} (n : nat) (l : list A) (l' : list B) :
  (n <= List.length l)%nat ->
  map snd (firstn n (combine l l')) = firstn n l'.
Proof.
  revert l l'; induction n as [|n IH]; intros l l' Hl; [reflexivity|].
  destruct l as [|x l]; [cbn [List.length] in Hl; lia|].
  destruct l' as [|y l']; [reflexivity|].
  cbn [List.length] in Hl. cbn [combine firstn map snd].
  now rewrite IH by lia.
Qed.

(** X11. When the multi-point fit returns a curve, at least two points
    were given and none of the N pairs read has a ratio or a
    concentration at most 0; the middle coefficient [p1] is then the mean
    of the natural logarithms of the N ratios. *)
Theorem multi_point_fit_validates (lm : Libm) (ppm rsro : list float) (n : Z)
    (c : curve) :
  (Z.to_nat n <= List.length ppm)%nat ->
  (Z.to_nat n <= List.length rsro)%nat ->
  computeMultiPointCurve lm ppm rsro n = Some c ->
  2 <= n /\
  (forall i, (i < Z.to_nat n)%nat ->
     F32.leb (nth i rsro F32.NAN) (F32.of_int 0) = false /\
     F32.leb (nth i ppm F32.NAN) (F32.of_int 0) = false) /\
  snd (fst c) =
    F32.div (sum_ln lm (firstn (Z.to_nat n) rsro)) (F32.of_int n).
Proof.
  intros Hp Hr. unfold computeMultiPointCurve.
  destruct (n <? 2) eqn:Hn; [discriminate|]. apply Z.ltb_ge in Hn.
  destruct (regression_sums lm _ _) as [[[[sx sy] sxy] sx2]|] eqn:E;
    [|discriminate].
  destruct (regression_sums_some _ _ _ _ E) as [F S]. cbn [fst] in S.
  rewrite firstn_combine_snd in S by exact Hp.
  rewrite (firstn_combine_at _ _ _ _ F32.NAN F32.NAN Hp Hr) in F.
  cbv zeta.
  destruct (F32.ltb _ _); [discriminate|].
  destruct (F32.ltb _ _); [discriminate|].
  intros H. injection H as <-. cbn [fst snd].
  split; [exact Hn|]. split.
  - intros i Hi. specialize (F i Hi). unfold fit_point_ok in F. cbn [fst snd] in F.
    apply negb_true_iff, orb_false_iff in F. exact F.
  - unfold sum_ln. now rewrite S.
Qed.

Lemma multi_point_fit_validates_witness :
  exists c,
    computeMultiPointCurve reference_libm [F32.of_int 10; F32.of_int 100]
      [F32.of_int 2; F32.of_int 10] 2 = Some c /\
    snd (fst c) =
      F32.div (sum_ln reference_libm [F32.of_int 2; F32.of_int 10])
        (F32.of_int 2).
Proof.
  assert (H : { c | computeMultiPointCurve reference_libm
                      [F32.of_int 10; F32.of_int 100]
                      [F32.of_int 2; F32.of_int 10] 2 = Some c })
    by (eexists; vm_compute; reflexivity).
  destruct H as [c H]. exists c. split; [exact H|].
  refine (proj2 (proj2 (multi_point_fit_validates _ _ _ _ _ _ _ H)));
    simpl; lia.
Defined.

Lemma regression_sums_nan_acc (lm : Libm) (pts : list (float * float))
    (sy : float) :
  Forall (fun pr => fit_point_ok pr = true) pts ->
  exists sy',
    regression_sums lm pts (F32.NAN, sy, F32.NAN, F32.NAN) =
      Some (F32.NAN, sy', F32.NAN, F32.NAN).
Proof.
  intros F. revert sy; induction F as [|[p r] rest Hv F IH]; intros sy;
    cbn [regression_sums]; [now eexists|].
  unfold fit_point_ok in Hv. cbn [fst snd] in Hv.
  apply negb_true_iff in Hv. rewrite Hv. rewrite !add_nan_l. apply IH.
Qed.

Lemma regression_sums_nan (lm : Libm) (pts : list (float * float))
    (acc : float * float * float * float) :
  log lm F32.NAN = F32.NAN ->
  Forall (fun pr => fit_point_ok pr = true) pts ->
  Exists (fun pr => F32.isnan (snd pr) = true) pts ->
  exists sy,
    regression_sums lm pts acc = Some (F32.NAN, sy, F32.NAN, F32.NAN).
Proof.
  intros Hlog F X. revert acc F.
  induction X as [[p r] rest Hn | [p r] rest X IH]; intros acc F;
    inversion F as [|? ? Hv F']; subst; cbn [regression_sums];
    unfold fit_point_ok in Hv; cbn [fst snd] in Hv;
    apply negb_true_iff in Hv; rewrite Hv;
    destruct acc as [[[sx sy] sxy] sx2].
  - cbn [snd] in Hn. apply isnan_eq in Hn. subst r. rewrite Hlog.
    rewrite !mul_nan_l, !add_nan_r. apply regression_sums_nan_acc, F'.
  - apply IH, F'.
Qed.

(** X12. The fit does not reject a ratio that is NaN: when every pair
    passes the sign test and one of the N ratios is NaN, the call returns
    true with the three coefficients NaN. *)
Theorem multi_point_fit_accepts_nan (lm : Libm) (ppm rsro : list float) (n : Z) :
  nan_propagating lm ->
  2 <= n ->
  (Z.to_nat n <= List.length ppm)%nat ->
  (Z.to_nat n <= List.length rsro)%nat ->
  (forall i, (i < Z.to_nat n)%nat ->
     F32.leb (nth i rsro F32.NAN) (F32.of_int 0) = false /\
     F32.leb (nth i ppm F32.NAN) (F32.of_int 0) = false) ->
  (exists i, (i < Z.to_nat n)%nat /\ F32.isnan (nth i rsro F32.NAN) = true) ->
  computeMultiPointCurve lm ppm rsro n = Some (F32.NAN, F32.NAN, F32.NAN).
Proof.
  intros [Hlog _] Hn Hp Hr Hv (i & Hi & Hnan). unfold computeMultiPointCurve.
  replace (n <? 2) with false by (symmetry; apply Z.ltb_ge; exact Hn).
  assert (F : Forall (fun pr => fit_point_ok pr = true)
                (firstn (Z.to_nat n) (combine ppm rsro))).
  { apply (proj2 (firstn_combine_at _ _ _ _ F32.NAN F32.NAN Hp Hr)).
    intros j Hj. cbv beta. unfold fit_point_ok. cbn [fst snd].
    destruct (Hv j Hj) as [H1 H2]. apply negb_true_iff, orb_false_iff.
    split; [exact H1 | exact H2]. }
  assert (X : Exists (fun pr => F32.isnan (snd pr) = true)
                (firstn (Z.to_nat n) (combine ppm rsro))).
  { apply Exists_exists. exists (nth i ppm F32.NAN, nth i rsro F32.NAN).
    split; [|exact Hnan].
    assert (G : Forall (fun pr => In pr (firstn (Z.to_nat n) (combine ppm rsro)))
                  (firstn (Z.to_nat n) (combine ppm rsro)))
      by (apply Forall_forall; auto).
    rewrite (firstn_combine_at _ _ _ _ F32.NAN F32.NAN Hp Hr) in G.
    exact (G i Hi). }
  destruct (regression_sums_nan lm _
              (F32.of_int 0, F32.of_int 0, F32.of_int 0, F32.of_int 0)
              Hlog F X) as (sy & ->).
  cbv zeta.
  rewrite !mul_nan_r, !mul_nan_l, !sub_nan_r, !div_nan_r, !div_nan_l,
    ?mul_nan_l, ?sub_nan_r, ?div_nan_l, ?add_nan_l.
  reflexivity.
Qed.

Lemma multi_point_fit_accepts_nan_witness :
  computeMultiPointCurve reference_libm [F32.of_int 10; F32.of_int 100]
    [F32.NAN; F32.of_int 10] 2 = Some (F32.NAN, F32.NAN, F32.NAN).
Proof.
  apply multi_point_fit_accepts_nan.
  - exact reference_libm_nan.
  - lia.
  - simpl. lia.
  - simpl. lia.
  - intros [|[|i]] Hi; [split; reflexivity .. | simpl in Hi; lia].
  - exists 0%nat. split; [simpl; lia | reflexivity].
Defined.

(** X13. [calculateSDAQI] does not mask an invalid input: when one of
    its eight arguments is NaN, so is the index, whatever the seven
    others are. *)
Theorem calculateSDAQI_propagates_nan
    (co co_mq7 co_mq9 ch4 h2 co2 nox air : float) :
  (exists x, In x [co; co_mq7; co_mq9; ch4; h2; co2; nox; air] /\
             F32.isnan x = true) ->
  F32.isnan (calculateSDAQI co co_mq7 co_mq9 ch4 h2 co2 nox air) = true.
Proof.
  intros (x & Hx & Hn). apply isnan_eq in Hn. subst x.
  assert (E : calculateSDAQI co co_mq7 co_mq9 ch4 h2 co2 nox air = F32.NAN).
  { unfold calculateSDAQI. cbn [In] in Hx.
    repeat (destruct Hx as [->|Hx];
            [rewrite mul_nan_l, ?add_nan_r, ?add_nan_l; reflexivity|]).
    contradiction. }
  rewrite E. reflexivity.
Qed.

Lemma calculateSDAQI_propagates_nan_witness :
  F32.isnan
    (calculateSDAQI (F32.of_int 1) (F32.of_int 1) (F32.of_int 1) F32.NAN
       (F32.of_int 1) (F32.of_int 1) (F32.of_int 1) (F32.of_int 1)) = true.
Proof.
  apply calculateSDAQI_propagates_nan.
  exists F32.NAN. split; [simpl; tauto | reflexivity].
Defined.

(** ** Refused requests, and measurements on clean inputs *)

Lemma severity_ladder_witness :
  F32.leb (F32.of_int 120) (F32.of_int 250) = true /\
  (rung (F32.of_int 120) <= rung (F32.of_int 250))%nat.
Proof.
  assert (H : F32.leb (F32.of_int 120) (F32.of_int 250) = true)
    by (vm_compute; reflexivity).
  split; [exact H|].
  exact (proj2 (proj2 (proj2 (proj2 (proj2 (proj2 (proj2 (proj2
           (severity_ladder (F32.of_int 120) (F32.of_int 250))))))))) H).
Defined.

Lemma globals_never_nan_witness :
  (forall pin, In pin mq_pins -> adc_range warm_board pin) /\
  reachable reference_libm warm_board
    (snd (loop reference_libm warm_board NoData (F32.of_int 40)
            (F32.of_int 25) (booted warm_board))) /\
  Forall (fun x => nonneg x = true)
    (globals (snd (loop reference_libm warm_board NoData (F32.of_int 40)
                     (F32.of_int 25) (booted warm_board)))).
Proof.
  assert (H : forall pin, In pin mq_pins -> adc_range warm_board pin)
    by (intros pin _ k; simpl; lia).
  assert (R : reachable reference_libm warm_board
                (snd (loop reference_libm warm_board NoData (F32.of_int 40)
                        (F32.of_int 25) (booted warm_board))))
    by (apply reach_loop, reach_setup).
  split; [exact H|]. split; [exact R|].
  exact (globals_never_nan _ _ _ H R).
Defined.






